(** * moviedb-api: the session lifecycle of [MovieDBController]

    A shallow embedding of [server/controllers/movie-db.js].  The controller
    is a set of asynchronous request handlers over three collaborators: the
    [AppUser] table (Sequelize), the humanID verification service and the
    [jsonwebtoken] library.  Handlers are embedded as computations in a
    state-and-exception monad over a [World] that holds the table and the
    ordered list of calls made to the collaborators.

    Conventions:
    - a JavaScript number that holds an integer is a [Z]; the expiry, which
      the code computes with a division, is a [Q] (numbers are taken where
      JavaScript arithmetic on them is exact);
    - a [Date] is its [getTime()] value, milliseconds since the epoch; a
      number written to a [DATE] column is read back as the [Date] of that
      many milliseconds, and [null] as [null].  A [Date] exists for at most
      8.64e15 ms on either side of the epoch ([valid_Date]); every clock
      reading is within that range, and a statement about a timestamp that
      is not a clock reading says so;
    - [undefined]/[null] are [None]; a field of a request body is a string
      or absent;
    - the collaborators answer: the store carries out every query, and
      humanID answers every call with a well-formed body;
    - a JWT is symbolic: a payload together with the key that signed it, or
      a string that is no JWT at all; a signature verifies exactly under
      the key that made it;
    - the table is the list of its rows in insertion order, and a look-up
      answers the first row that matches. *)

From Stdlib Require Import ZArith QArith List String Ascii Bool Lia.
From Stdlib Require Import DecimalString DecimalZ.
Import ListNotations.

Local Open Scope Z_scope.
Local Open Scope string_scope.

(* ================================================================= *)
(** ** JavaScript primitives *)

Module JS.

(** [Date]: milliseconds since the Unix epoch. *)
Definition Date := Z.

(** [Math.round(x / 1000)] for an integer [x]: nearest integer, a tie
    going towards plus infinity. *)
Definition round_div1000 (x : Z) : Z := (x + 500) / 1000.

(** [Math.floor(x / 1000)]. *)
Definition floor_div1000 (x : Z) : Z := x / 1000.

(** Template-literal rendering of an integer number: [`${n}`]. *)
Definition to_string (n : Z) : string :=
  NilZero.string_of_int (Z.to_int n).

End JS.

(** [function getUnixTime(t) { return Math.round(t.getTime() / 1000) }] *)
Definition getUnixTime (t : JS.Date) : Z := JS.round_div1000 t.

(** [function generateExtId() { let id = getUnixTime(new Date()); return `${id}` }] *)
Definition generateExtId (now : JS.Date) : string :=
  JS.to_string (getUnixTime now).

(* ================================================================= *)
(** ** Errors *)

(** The two errors [jwt.verify] hands to its callback. *)
Inductive JwtError : Type :=
| TokenExpiredError
| JsonWebTokenError.

(** The codes the controller passes to [new APIError(...)].
    [RESPONSE_ERROR_BAD_REQUEST] is the code raised by
    [BaseController.validate]. *)
Inductive ErrorCode : Type :=
| RESPONSE_ERROR_UNAUTHORIZED
| RESPONSE_ERROR_BAD_REQUEST
| ERR_1
| ERR_2
| ERR_3.

(** What a handler can throw. *)
Inductive Exn : Type :=
| APIError (code : ErrorCode) (source : option JwtError)
| TypeError.

(** Modelled from the spec: the error table of [server/api-error] and
    [server/constants] is not part of the sources.  The taxonomy of the
    specification puts the missing, invalid, expired and replayed session
    token, the wrong client secret and the unknown user under
    [Unauthorized]; the rejected exchange token is
    [IdentityVerificationFailed]; a missing required field is
    [ValidationFailed]. *)
Definition Unauthorized (e : Exn) : bool :=
  match e with
  | APIError RESPONSE_ERROR_UNAUTHORIZED _ => true
  | APIError ERR_1 _ => true
  | APIError ERR_2 _ => true
  | _ => false
  end.

Definition SessionExpired : Exn := APIError ERR_1 (Some TokenExpiredError).
Definition SessionInvalid : Exn := APIError ERR_2 (Some JsonWebTokenError).

Definition ValidationFailed (e : Exn) : bool :=
  match e with
  | APIError RESPONSE_ERROR_BAD_REQUEST _ => true
  | _ => false
  end.

Definition IdentityVerificationFailed (e : Exn) : bool :=
  match e with
  | APIError ERR_3 _ => true
  | _ => false
  end.

(* ================================================================= *)
(** ** The [AppUser] table *)

(** One row, with the columns of the migration
    [20200327081600-create-demo-app-user.js]. *)
Record AppUser : Type := mkAppUser {
  id        : Z;
  extId     : string;
  userHash  : string;
  fullName  : option string;
  lastLogIn : option JS.Date;
  createdAt : JS.Date;
  updatedAt : JS.Date
}.

(** The values object of [AppUser.update(values, {where: {id}})].  A key
    that is absent or [undefined] is [None] and leaves the column alone;
    [lastLogIn: null] is [Some None]. *)
Record UpdateValues : Type := mkUpdateValues {
  set_fullName  : option string;
  set_lastLogIn : option (option JS.Date);
  set_updatedAt : option JS.Date
}.

(** Calls made to the collaborators, in the order they are made. *)
Inductive Call : Type :=
| Call_findByPk (pk : Z)
| Call_findOne (ext : string)
| Call_findOrCreate (hash : string)
| Call_update (values : UpdateValues) (pk : Z)
| Call_verifyExchangeToken (exchangeToken : string)
| Call_logger_error (e : Exn)
| Call_logger_debug.

Record World : Type := mkWorld {
  AppUserTable  : list AppUser;
  autoIncrement : Z;
  calls         : list Call
}.

Definition record (c : Call) (w : World) : World :=
  mkWorld (AppUserTable w) (autoIncrement w) (calls w ++ [c]).

Definition with_table (t : list AppUser) (w : World) : World :=
  mkWorld t (autoIncrement w) (calls w).

(* ================================================================= *)
(** ** Asynchronous computations: state and exceptions *)

Inductive Outcome (A : Type) : Type :=
| Resolved (a : A)
| Rejected (e : Exn).
Arguments Resolved {A} a.
Arguments Rejected {A} e.

(** A promise-returning function: it runs on a world and leaves a world
    behind, whether it resolves or rejects (nothing is rolled back). *)
Definition Async (A : Type) : Type := World -> Outcome A * World.

Definition ret {A} (a : A) : Async A := fun w => (Resolved a, w).

Definition throw {A} (e : Exn) : Async A := fun w => (Rejected e, w).

Definition bind {A B} (m : Async A) (k : A -> Async B) : Async B :=
  fun w =>
    match m w with
    | (Resolved a, w') => k a w'
    | (Rejected e, w') => (Rejected e, w')
    end.

(** [try { x = await m } catch (e) { ... }]: the outcome of [m] as a value;
    what [m] did to the world stays done. *)
Definition attempt {A} (m : Async A) : Async (Exn + A) :=
  fun w =>
    match m w with
    | (Resolved a, w') => (Resolved (inr a), w')
    | (Rejected e, w') => (Resolved (inl e), w')
    end.

Definition call (c : Call) : Async unit := fun w => (Resolved tt, record c w).

Declare Scope async_scope.
Delimit Scope async_scope with async.
Notation "x <- m ;; k" := (bind m (fun x => k))
  (at level 61, m at next level, right associativity) : async_scope.
Notation "m ;;; k" := (bind m (fun _ => k))
  (at level 61, right associativity) : async_scope.
Local Open Scope async_scope.

(* ================================================================= *)
(** ** Repository operations (Sequelize) *)

Module Repo.

Definition has_id (pk : Z) (u : AppUser) : bool := Z.eqb (id u) pk.
Definition has_extId (e : string) (u : AppUser) : bool := String.eqb (extId u) e.
Definition has_userHash (h : string) (u : AppUser) : bool := String.eqb (userHash u) h.

(** [AppUser.findByPk(pk)] *)
Definition findByPk (pk : Z) : Async (option AppUser) :=
  fun w => (Resolved (find (has_id pk) (AppUserTable w)), record (Call_findByPk pk) w).

(** [AppUser.findOne({where: {extId: e}})]: the first matching row. *)
Definition findOne (e : string) : Async (option AppUser) :=
  fun w => (Resolved (find (has_extId e) (AppUserTable w)), record (Call_findOne e) w).

(** The effect of an update on one row, as Sequelize 5 carries it out:
    [updatedAt] is stamped with the clock of the call, whatever value the
    caller passes for it, and an update that names no other column is
    skipped. *)
Definition apply_values (now : JS.Date) (v : UpdateValues) (u : AppUser) : AppUser :=
  match set_fullName v, set_lastLogIn v with
  | None, None => u
  | _, _ =>
      mkAppUser (id u) (extId u) (userHash u)
        (match set_fullName v with Some n => Some n | None => fullName u end)
        (match set_lastLogIn v with Some l => l | None => lastLogIn u end)
        (createdAt u)
        now
  end.

Definition update_rows (now : JS.Date) (v : UpdateValues) (pk : Z)
  (t : list AppUser) : list AppUser :=
  map (fun u => if has_id pk u then apply_values now v u else u) t.

(** [AppUser.update(values, {where: {id: pk}})] *)
Definition update (now : JS.Date) (v : UpdateValues) (pk : Z) : Async unit :=
  fun w =>
    (Resolved tt,
     record (Call_update v pk) (with_table (update_rows now v pk (AppUserTable w)) w)).

(** The [defaults] of [findOrCreate]. *)
Record Defaults : Type := mkDefaults {
  d_extId    : string;
  d_userHash : string;
  d_fullName : string
}.

(** [AppUser.findOrCreate({where: {userHash: h}, defaults})]: the first
    row with that hash, and otherwise a new row with the next
    auto-increment key.  The result is the pair [[user, created]]. *)
Definition findOrCreate (now : JS.Date) (h : string) (d : Defaults)
  : Async (AppUser * bool) :=
  fun w =>
    let w1 := record (Call_findOrCreate h) w in
    match find (has_userHash h) (AppUserTable w) with
    | Some u => (Resolved (u, false), w1)
    | None =>
        let u := mkAppUser (autoIncrement w) (d_extId d) (d_userHash d)
                   (Some (d_fullName d)) None now now in
        (Resolved (u, true),
         mkWorld (AppUserTable w ++ [u]) (autoIncrement w + 1) (calls w1))
    end.

End Repo.

(* ================================================================= *)
(** ** JSON web tokens ([jsonwebtoken]) *)

Module Jwt.

(** [payload.data] *)
Record SessionData : Type := mkSessionData {
  userId    : string;
  sessionId : string
}.

(** [UserSessionJWTPayload] *)
Record Payload : Type := mkPayload {
  iat  : Z;
  exp  : Q;
  data : SessionData
}.

(** A token as the header carries it: a payload signed with some key, or
    a string that does not parse as a JWT. *)
Inductive Token : Type :=
| Signed (p : Payload) (key : string)
| Malformed (s : string).

(** [jwt.sign({exp, data}, secret)]: the library stamps [iat] with its own
    clock, [Math.floor(Date.now() / 1000)]. *)
Definition sign (now : JS.Date) (e : Q) (d : SessionData) (secret : string) : Token :=
  Signed (mkPayload (JS.floor_div1000 now) e d) secret.

(** Whether the signature of a presented token verifies under [secret]. *)
Definition signature_ok (t : option Token) (secret : string) : bool :=
  match t with
  | Some (Signed _ key) => String.eqb key secret
  | _ => false
  end.

(** [jwt.verify(token, secret, callback)]: the signature is checked
    first, then the expiry, [clockTimestamp >= payload.exp] with
    [clockTimestamp = Math.floor(Date.now() / 1000)]. *)
Definition verify (now : JS.Date) (t : option Token) (secret : string)
  : JwtError + Payload :=
  match t with
  | None => inl JsonWebTokenError
  | Some (Malformed _) => inl JsonWebTokenError
  | Some (Signed p key) =>
      if String.eqb key secret then
        if Qle_bool (exp p) (inject_Z (JS.floor_div1000 now))
        then inl TokenExpiredError
        else inr p
      else inl JsonWebTokenError
  end.

End Jwt.

(* ================================================================= *)
(** ** Requests and responses *)

(** [config.client] *)
Record ClientConfig : Type := mkClientConfig {
  appSecret       : option string;
  sessionIdSecret : string;
  jwtSecret       : string;
  jwtLifetime     : string
}.

(** What a request reads from the process besides the table: the clock
    ([new Date()], [Date.now()]; one reading per request) and the name
    drawn by [_.startCase(dockerNames.getRandomName(false))]. *)
Record Env : Type := mkEnv {
  clock      : JS.Date;
  randomName : string
}.

Module Session.

(** [UserSessionPayload]: [{id: user.id, extId: user.extId}] *)
Record Payload : Type := mk {
  id    : Z;
  extId : string
}.

End Session.

(** [UserSession]: [{token, expiredAt}] *)
Record UserSession : Type := mkUserSession {
  token     : Jwt.Token;
  expiredAt : Q
}.

(** [req.body] *)
Record Body : Type := mkBody {
  exchangeToken : option string;
  body_fullName : option string
}.

Record Request : Type := mkRequest {
  header_clientSecret    : option string;
  header_userAccessToken : option Jwt.Token;
  body                   : Body;
  userAccess             : option Session.Payload
}.

Definition set_userAccess (p : Session.Payload) (req : Request) : Request :=
  mkRequest (header_clientSecret req) (header_userAccessToken req) (body req) (Some p).

(** The [data] of the REST envelope a handler returns. *)
Inductive ResponseData : Type :=
| NoData
| SessionResponse (s : UserSession)
| ProfileResponse (ext : string) (name : option string) (updated : Z).

(** [a !== b] on values that are a string or [undefined]. *)
Definition strict_neq (a b : option string) : bool :=
  match a, b with
  | Some x, Some y => negb (String.eqb x y)
  | None, None => false
  | _, _ => true
  end.

(** Modelled from the spec: [BaseController.validate({field: 'required'},
    body)] is not part of the sources; a missing required field is a
    [ValidationFailed], surfaced as a bad request.  The value is handed
    back for the code that reads the field next. *)
Definition validate_required (field : option string) : Async string :=
  match field with
  | Some v => ret v
  | None => throw (APIError RESPONSE_ERROR_BAD_REQUEST None)
  end.

(* ================================================================= *)
(** ** The controller *)

Section MovieDBController.

(** [components.Common.hmac(raw, secret)] *)
Variable hmac : string -> string -> string.

(** [ms(duration)]: the duration string in milliseconds. *)
Variable ms : string -> Z.

(** The answer of the humanID endpoint [/mobile/users/verifyExchangeToken]
    to a call that went through: [Some hash] stands for
    [{success: true, data: {userHash: hash}}], [None] for an answer whose
    [success] is not truthy.  A call that fails, and a confirming answer
    without [data.userHash], are outside this model. *)
Variable humanID : string -> option string.

(** [this.config.client] *)
Variable config : ClientConfig.

(** [createSessionId(userExtId, lastLogInMillis)] *)
Definition createSessionId (userExtId : string) (lastLogInMillis : Z) : string :=
  let raw := userExtId ++ "-" ++ JS.to_string lastLogInMillis in
  hmac raw (sessionIdSecret config).

(** [newUserSession(userId, userExtId, timestamp)] *)
Definition newUserSession (now : JS.Date) (userId : Z) (userExtId : string)
  (timestamp : Z) : Async UserSession :=
  Repo.update now
    (mkUpdateValues None (Some (Some (timestamp * 1000))) (Some (timestamp * 1000)))
    userId ;;;
  let sessionId := createSessionId userExtId timestamp in
  let durationMs := ms (jwtLifetime config) in
  let expiredAt := Qplus (inject_Z timestamp) (Qmake durationMs 1000) in
  let jwtSession :=
    Jwt.sign now expiredAt (Jwt.mkSessionData userExtId sessionId) (jwtSecret config) in
  ret (mkUserSession jwtSession expiredAt).

(** [verifyJWT(token)] *)
Definition verifyJWT (now : JS.Date) (token : option Jwt.Token) : Async Jwt.Payload :=
  match Jwt.verify now token (jwtSecret config) with
  | inl TokenExpiredError => throw (APIError ERR_1 (Some TokenExpiredError))
  | inl err => throw (APIError ERR_2 (Some err))
  | inr payload => ret payload
  end.

(** [validateUserSession(userAccessToken)].  A row read back from the
    table carries [lastLogIn] as a [Date] object or [null], so
    [!user.lastLogIn] holds exactly for [null]. *)
Definition validateUserSession (now : JS.Date) (userAccessToken : option Jwt.Token)
  : Async Session.Payload :=
  payload <- verifyJWT now userAccessToken ;;
  user <- Repo.findOne (Jwt.userId (Jwt.data payload)) ;;
  match user with
  | None => throw (APIError RESPONSE_ERROR_UNAUTHORIZED None)
  | Some user =>
      let lastLogIn :=
        match lastLogIn user with
        | None => -1
        | Some d => getUnixTime d
        end in
      let currentSessionId := createSessionId (extId user) lastLogIn in
      if negb (String.eqb currentSessionId (Jwt.sessionId (Jwt.data payload)))
      then throw (APIError RESPONSE_ERROR_UNAUTHORIZED None)
      else ret (Session.mk (id user) (extId user))
  end.

(** [verifyExchangeToken(exchangeToken)] *)
Definition verifyExchangeToken (exchangeToken : string) : Async string :=
  call (Call_verifyExchangeToken exchangeToken) ;;;
  match humanID exchangeToken with
  | None => call Call_logger_debug ;;; throw (APIError ERR_3 None)
  | Some userHash => ret userHash
  end.

(** *** Handlers *)

(** [handleValidateUserSession]: sets [req.userAccess] and calls [next()]. *)
Definition handleValidateUserSession (env : Env) (req : Request) : Async Request :=
  ua <- validateUserSession (clock env) (header_userAccessToken req) ;;
  ret (set_userAccess ua req).

(** [handleValidateClientApp] *)
Definition handleValidateClientApp (req : Request) : Async Request :=
  let clientSecret := header_clientSecret req in
  if strict_neq clientSecret (appSecret config)
  then throw (APIError RESPONSE_ERROR_UNAUTHORIZED None)
  else ret req.

(** [handleGetProfile] *)
Definition handleGetProfile (req : Request) : Async ResponseData :=
  match userAccess req with
  | None => throw TypeError
  | Some user =>
      u <- Repo.findByPk (Session.id user) ;;
      match u with
      | None => throw TypeError
      | Some u => ret (ProfileResponse (extId u) (fullName u) (getUnixTime (updatedAt u)))
      end
  end.

(** [handleLogOut] *)
Definition handleLogOut (env : Env) (req : Request) : Async ResponseData :=
  let userAccessToken := header_userAccessToken req in
  r <- attempt (validateUserSession (clock env) userAccessToken) ;;
  match r with
  | inl e => call (Call_logger_error e) ;;; ret NoData
  | inr session =>
      Repo.update (clock env)
        (mkUpdateValues None (Some None) (Some (clock env)))
        (Session.id session) ;;;
      call Call_logger_debug ;;;
      ret NoData
  end.

(** [handleUpdateProfile] *)
Definition handleUpdateProfile (env : Env) (req : Request) : Async ResponseData :=
  match userAccess req with
  | None => throw TypeError
  | Some user =>
      let body := body req in
      Repo.update (clock env)
        (mkUpdateValues (body_fullName body) None None)
        (Session.id user) ;;;
      ret NoData
  end.

(** [handleRefreshSession] *)
Definition handleRefreshSession (env : Env) (req : Request) : Async ResponseData :=
  match userAccess req with
  | None => throw TypeError
  | Some user =>
      session <- newUserSession (clock env) (Session.id user) (Session.extId user)
                   (getUnixTime (clock env)) ;;
      ret (SessionResponse session)
  end.

(** [handleLogIn] *)
Definition handleLogIn (env : Env) (req : Request) : Async ResponseData :=
  let body := body req in
  exchangeToken <- validate_required (exchangeToken body) ;;
  userHash <- verifyExchangeToken exchangeToken ;;
  users <- Repo.findOrCreate (clock env) userHash
             (Repo.mkDefaults (generateExtId (clock env)) userHash (randomName env)) ;;
  let user := fst users in
  session <- newUserSession (clock env) (id user) (extId user)
               (getUnixTime (clock env)) ;;
  ret (SessionResponse session).

(** *** Routes: the handler chains registered by [route()] *)

(** [router.post('/users/log-in', handleValidateClientApp, handleLogIn)] *)
Definition post_users_log_in (env : Env) (req : Request) : Async ResponseData :=
  req' <- handleValidateClientApp req ;; handleLogIn env req'.

(** [router.get('/users/profile', handleValidateUserSession, handleGetProfile)] *)
Definition get_users_profile (env : Env) (req : Request) : Async ResponseData :=
  req' <- handleValidateUserSession env req ;; handleGetProfile req'.

(** [router.put('/users/refresh-session', handleValidateUserSession, handleRefreshSession)] *)
Definition put_users_refresh_session (env : Env) (req : Request) : Async ResponseData :=
  req' <- handleValidateUserSession env req ;; handleRefreshSession env req'.

(** [router.put('/users/profile', handleValidateUserSession, handleUpdateProfile)] *)
Definition put_users_profile (env : Env) (req : Request) : Async ResponseData :=
  req' <- handleValidateUserSession env req ;; handleUpdateProfile env req'.

(** [router.put('/users/log-out', handleLogOut)] *)
Definition put_users_log_out (env : Env) (req : Request) : Async ResponseData :=
  handleLogOut env req.

End MovieDBController.

(* ================================================================= *)
(** ** The API as a whole *)

(** The five user routes of [route()]. *)
Inductive Route : Type :=
| POST_users_log_in
| GET_users_profile
| PUT_users_refresh_session
| PUT_users_profile
| PUT_users_log_out.

Section Server.

Variable hmac : string -> string -> string.
Variable ms : string -> Z.
Variable humanID : string -> option string.
Variable config : ClientConfig.

(** The router: one request served on a world. *)
Definition serve (r : Route) (env : Env) (req : Request) : Async ResponseData :=
  match r with
  | POST_users_log_in => post_users_log_in hmac ms humanID config env req
  | GET_users_profile => get_users_profile hmac config env req
  | PUT_users_refresh_session => put_users_refresh_session hmac ms config env req
  | PUT_users_profile => put_users_profile hmac config env req
  | PUT_users_log_out => put_users_log_out hmac config env req
  end.

(** A sequence of requests served one after the other. *)
Fixpoint serve_all (l : list (Route * Env * Request)) (w : World) : World :=
  match l with
  | [] => w
  | (r, env, req) :: l' => serve_all l' (snd (serve r env req w))
  end.

End Server.

(** The columns of a row that no operation of the controller rewrites. *)
Definition identity (u : AppUser) : Z * string * string :=
  (id u, extId u, userHash u).

(** External ids identify rows. *)
Definition extIds_unique (w : World) : Prop :=
  NoDup (map extId (AppUserTable w)).

(** The last-login marker [validateUserSession] recomputes from a row. *)
Definition marker (u : AppUser) : Z :=
  match lastLogIn u with
  | None => -1
  | Some d => getUnixTime d
  end.

(** The keyed transform has no collision under the key [k]. *)
Definition collision_free (hmac : string -> string -> string) (k : string) : Prop :=
  forall a b, hmac a k = hmac b k -> a = b.

(** Whether an identity carries the humanID hash [h]. *)
Definition carries (h : string) (i : Z * string * string) : bool :=
  String.eqb (snd i) h.

(** The number of rows of a table that belong to the person [h]. *)
Definition rows_of (h : string) (t : list AppUser) : nat :=
  List.length (filter (Repo.has_userHash h) t).

(** How one request may change the table: the identities stay, and at most
    one row is appended, for a person who had none. *)
Inductive grows (t t' : list AppUser) : Prop :=
| grows_same :
    map identity t' = map identity t -> grows t t'
| grows_new (u : AppUser) :
    map identity t' = (map identity t ++ [identity u])%list ->
    find (Repo.has_userHash (userHash u)) t = None ->
    grows t t'.

(** The person [h], once in the table, stays the same row: same identity
    under look-up by hash, and as many rows as before. *)
Definition settled (h : string) (t t' : list AppUser) : Prop :=
  forall u, find (Repo.has_userHash h) t = Some u ->
    (exists u', find (Repo.has_userHash h) t' = Some u' /\ identity u' = identity u) /\
    rows_of h t' = rows_of h t.

(** The session token carried by a response. *)
Definition response_token (d : ResponseData) : option Jwt.Token :=
  match d with
  | SessionResponse s => Some (token s)
  | _ => None
  end.

(** A token has not expired for a verifier whose clock reads [now]. *)
Definition unexpired (now : JS.Date) (s : UserSession) : Prop :=
  Qlt (inject_Z (JS.floor_div1000 now)) (expiredAt s).

(* ================================================================= *)
(** ** A concrete deployment, for running the handlers *)

Module Demo.

(** A keyed transform without collisions: the key, a separator, the text. *)
Definition hmac (raw secret : string) : string := secret ++ "|" ++ raw.

(** Every lifetime reads as one hour. *)
Definition ms (_ : string) : Z := 3600000.

(** The exchange tokens [tok-A] and [tok-B] belong to the person [h1]. *)
Definition humanID (exchangeToken : string) : option string :=
  if String.eqb exchangeToken "tok-A" then Some "h1"
  else if String.eqb exchangeToken "tok-B" then Some "h1"
  else None.

Definition config : ClientConfig :=
  mkClientConfig (Some "app-secret") "sid-secret" "jwt-secret" "1h".

(** An empty table. *)
Definition w0 : World := mkWorld [] 1 [].

Definition login_request (exchange : string) : Request :=
  mkRequest (Some "app-secret") None (mkBody (Some exchange) None) None.

Definition session_request (t : option Jwt.Token) (name : option string) : Request :=
  mkRequest None t (mkBody None name) None.

Definition at_time (now : JS.Date) : Env := mkEnv now "Jolly Turing".

Definition run (r : Route) (now : JS.Date) (req : Request) (w : World)
  : Outcome ResponseData * World :=
  serve hmac ms humanID config r (at_time now) req w.

Definition validate (now : JS.Date) (t : option Jwt.Token) (w : World)
  : Outcome Session.Payload :=
  fst (validateUserSession hmac config now t w).

(** The token of a response, a string that is no token when there is none. *)
Definition token_of (r : Outcome ResponseData * World) : Jwt.Token :=
  match fst r with
  | Resolved (SessionResponse s) => token s
  | _ => Jwt.Malformed ""
  end.

(** First log-in of [h1], at 1589009541.600 s: the clock rounds to
    1589009542. *)
Definition login1 := run POST_users_log_in 1589009541600 (login_request "tok-A") w0.
Definition T1 : Jwt.Token := token_of login1.
Definition w1 : World := snd login1.

(** A refresh in the same rounded second, at 1589009542.400 s. *)
Definition refresh_same_second :=
  run PUT_users_refresh_session 1589009542400 (session_request (Some T1) None) w1.

(** A second log-in of [h1] ten seconds after the first. *)
Definition login2 := run POST_users_log_in 1589009551600 (login_request "tok-B") w1.
Definition T2 : Jwt.Token := token_of login2.
Definition w2 : World := snd login2.

(** The session and the payload behind a token. *)
Definition session_of (r : Outcome ResponseData * World) : UserSession :=
  match fst r with
  | Resolved (SessionResponse s) => s
  | _ => mkUserSession (Jwt.Malformed "") 0
  end.

Definition payload_of (t : Jwt.Token) : Jwt.Payload :=
  match t with
  | Jwt.Signed p _ => p
  | Jwt.Malformed _ => Jwt.mkPayload 0 0 (Jwt.mkSessionData "" "")
  end.

(** The row of [h1] after the first log-in. *)
Definition turing : AppUser :=
  mkAppUser 1 "1589009542" "h1" (Some "Jolly Turing") (Some 1589009542000)
    1589009541600 1589009541600.

(** Requests of the same person between two log-ins: a profile update, a
    refresh and a log-out, all with the first token. *)
Definition between : list (Route * Env * Request) :=
  [ (PUT_users_profile, at_time 1589009543000,
     session_request (Some T1) (Some "Alan Turing"));
    (PUT_users_refresh_session, at_time 1589009544000,
     session_request (Some T1) None);
    (PUT_users_log_out, at_time 1589009545000,
     session_request (Some T1) None) ].

(** A log-out with the current token, after the second log-in. *)
Definition logout2 := run PUT_users_log_out 1589009560000 (session_request (Some T2) None) w2.

(** A profile update whose body has no [fullName]. *)
Definition update_without_name :=
  run PUT_users_profile 1589009545000 (session_request (Some T1) None) w1.

End Demo.

(* ================================================================= *)
(** ** Views of the routes and of a row *)

(** The routes registered behind [handleValidateUserSession]. *)
Definition behind_session (r : Route) : bool :=
  match r with
  | GET_users_profile | PUT_users_refresh_session | PUT_users_profile => true
  | POST_users_log_in | PUT_users_log_out => false
  end.

(** What [validateUserSession] reads of a row: the key, the external id and
    the last log-in. *)
Definition session_view (u : AppUser) : Z * string * option JS.Date :=
  (id u, extId u, lastLogIn u).

(** The milliseconds for which JavaScript has a [Date]; outside them
    [new Date(ms)] is an Invalid Date. *)
Definition valid_Date (millis : Z) : Prop :=
  -8640000000000000 <= millis <= 8640000000000000.

(** The row [findOrCreate] inserts for a person without one. *)
Definition created_row (w : World) (env : Env) (h : string) : AppUser :=
  mkAppUser (autoIncrement w) (generateExtId (clock env)) h
    (Some (randomName env)) None (clock env) (clock env).

(** The values [newUserSession] writes at the clock of a request. *)
Definition session_values (env : Env) : UpdateValues :=
  mkUpdateValues None (Some (Some (getUnixTime (clock env) * 1000)))
    (Some (getUnixTime (clock env) * 1000)).

Module Demo2.

(** Two persons: [tok-A] belongs to [h1], [tok-C] to [h2]. *)
Definition humanID (exchangeToken : string) : option string :=
  if String.eqb exchangeToken "tok-A" then Some "h1"
  else if String.eqb exchangeToken "tok-C" then Some "h2"
  else None.

Definition run (r : Route) (now : JS.Date) (req : Request) (w : World)
  : Outcome ResponseData * World :=
  serve Demo.hmac Demo.ms humanID Demo.config r (Demo.at_time now) req w.

(** [h2] logs in for the first time in the rounded second of [h1]'s first
    log-in. *)
Definition login_other :=
  run POST_users_log_in 1589009542300 (Demo.login_request "tok-C") Demo.w1.

(** The table after it: two rows with the external id ["1589009542"]. *)
Definition w_shared : World := snd login_other.

(** A request with the first token and a new display name. *)
Definition rename_request : Request :=
  Demo.session_request (Some Demo.T1) (Some "Alan Turing").

(** [h2] logs in for the first time eight seconds after [h1]. *)
Definition login_later :=
  run POST_users_log_in 1589009550000 (Demo.login_request "tok-C") Demo.w1.
Definition TB : Jwt.Token := Demo.token_of login_later.
Definition w_two : World := snd login_later.

End Demo2.

(* ================================================================= *)
(** * Properties *)

(** ** Numbers and strings *)

Lemma getUnixTime_millis (seconds : Z) : getUnixTime (seconds * 1000) = seconds.
Proof.
  unfold getUnixTime, JS.round_div1000.
  symmetry. apply Z.div_unique with (r := 500); lia.
Qed.

Lemma floor_le_getUnixTime (now : JS.Date) :
  JS.floor_div1000 now <= getUnixTime now <= JS.floor_div1000 now + 1.
Proof.
  unfold getUnixTime, JS.round_div1000, JS.floor_div1000.
  split.
  - apply Z.div_le_mono; lia.
  - replace (now / 1000 + 1) with ((now + 1 * 1000) / 1000)
      by (rewrite Z.div_add; lia).
    apply Z.div_le_mono; lia.
Qed.

Lemma to_int_not_nil (n : Z) :
  Z.to_int n <> Decimal.Pos Decimal.Nil /\ Z.to_int n <> Decimal.Neg Decimal.Nil.
Proof.
  destruct n as [|p|p]; simpl; split; try discriminate;
    intros [= H]; exact (DecimalPos.Unsigned.to_uint_nonnil p H).
Qed.

Lemma to_string_inj (a b : Z) : JS.to_string a = JS.to_string b -> a = b.
Proof.
  unfold JS.to_string. intros H.
  apply DecimalZ.to_int_inj.
  destruct (to_int_not_nil a) as [Ha1 Ha2], (to_int_not_nil b) as [Hb1 Hb2].
  pose proof (NilZero.isi _ Ha1 Ha2) as Ia.
  pose proof (NilZero.isi _ Hb1 Hb2) as Ib.
  rewrite H in Ia. congruence.
Qed.

Lemma append_cancel_l (s a b : string) : s ++ a = s ++ b -> a = b.
Proof.
  induction s as [|c s IH]; simpl; intros H.
  - exact H.
  - injection H as H. auto.
Qed.

Lemma strict_neq_spec (a b : option string) : strict_neq a b = true <-> a <> b.
Proof.
  destruct a as [x|], b as [y|]; simpl; split; try congruence.
  - destruct (String.eqb_spec x y); simpl; congruence.
  - destruct (String.eqb_spec x y); simpl; congruence.
Qed.

Lemma Qle_bool_false (x y : Q) : Qlt x y -> Qle_bool y x = false.
Proof.
  intros H. destruct (Qle_bool y x) eqn:E; [|reflexivity].
  apply Qle_bool_iff in E. exfalso. exact (Qlt_not_le _ _ H E).
Qed.

Lemma Qle_bool_true (x y : Q) : Qlt x y -> Qle_bool x y = true.
Proof.
  intros H. apply Qle_bool_iff. apply Qlt_le_weak. exact H.
Qed.

(** ** The table *)

Lemma find_map_stable {A} (p : A -> bool) (f : A -> A) (l : list A) :
  (forall x, p (f x) = p x) ->
  find p (map f l) = option_map f (find p l).
Proof.
  intros Hp. induction l as [|x l IH]; simpl; [reflexivity|].
  rewrite Hp. destruct (p x); [reflexivity | exact IH].
Qed.

Lemma NoDup_map_eq {A B} (f : A -> B) (l : list A) (x y : A) :
  NoDup (map f l) -> In x l -> In y l -> f x = f y -> x = y.
Proof.
  induction l as [|a l IH]; simpl; [tauto|].
  intros Hnd Hx Hy Hf. inversion Hnd as [|? ? Hnotin Hnd']; subst.
  destruct Hx as [-> | Hx], Hy as [-> | Hy]; auto.
  - exfalso. apply Hnotin. rewrite Hf. now apply in_map.
  - exfalso. apply Hnotin. rewrite <- Hf. now apply in_map.
Qed.

Lemma identity_apply_values now v u :
  identity (Repo.apply_values now v u) = identity u.
Proof.
  unfold Repo.apply_values.
  destruct (set_fullName v), (set_lastLogIn v); reflexivity.
Qed.

Lemma identity_update_rows now v pk t :
  map identity (Repo.update_rows now v pk t) = map identity t.
Proof.
  unfold Repo.update_rows. rewrite map_map. apply map_ext.
  intros u. destruct (Repo.has_id pk u); [unfold Repo.apply_values;
    destruct (set_fullName v), (set_lastLogIn v)|]; reflexivity.
Qed.

Lemma extId_update_rows now v pk t :
  map extId (Repo.update_rows now v pk t) = map extId t.
Proof.
  unfold Repo.update_rows. rewrite map_map. apply map_ext.
  intros u. destruct (Repo.has_id pk u); [unfold Repo.apply_values;
    destruct (set_fullName v), (set_lastLogIn v)|]; reflexivity.
Qed.

Lemma find_extId_update_rows now v pk e t :
  find (Repo.has_extId e) (Repo.update_rows now v pk t) =
  option_map (fun u => if Repo.has_id pk u then Repo.apply_values now v u else u)
    (find (Repo.has_extId e) t).
Proof.
  apply find_map_stable. intros u. destruct (Repo.has_id pk u); [unfold Repo.apply_values;
    destruct (set_fullName v), (set_lastLogIn v)|]; reflexivity.
Qed.

Lemma find_userHash_update_rows now v pk h t :
  find (Repo.has_userHash h) (Repo.update_rows now v pk t) =
  option_map (fun u => if Repo.has_id pk u then Repo.apply_values now v u else u)
    (find (Repo.has_userHash h) t).
Proof.
  apply find_map_stable. intros u. destruct (Repo.has_id pk u); [unfold Repo.apply_values;
    destruct (set_fullName v), (set_lastLogIn v)|]; reflexivity.
Qed.

Lemma has_id_refl u : Repo.has_id (id u) u = true.
Proof. unfold Repo.has_id. apply Z.eqb_refl. Qed.

Lemma find_has_extId e t u :
  find (Repo.has_extId e) t = Some u -> In u t /\ extId u = e.
Proof.
  intros H. apply find_some in H. destruct H as [Hin Hp].
  split; [exact Hin|]. now apply String.eqb_eq.
Qed.

Lemma find_has_userHash h t u :
  find (Repo.has_userHash h) t = Some u -> In u t /\ userHash u = h.
Proof.
  intros H. apply find_some in H. destruct H as [Hin Hp].
  split; [exact Hin|]. now apply String.eqb_eq.
Qed.

(** With unique external ids, the row of a table found by its external id
    is the row itself. *)
Lemma find_extId_unique t u :
  NoDup (map extId t) -> In u t -> find (Repo.has_extId (extId u)) t = Some u.
Proof.
  intros Hnd Hin.
  destruct (find (Repo.has_extId (extId u)) t) as [x|] eqn:E.
  - apply find_has_extId in E. destruct E as [Hx He].
    f_equal. exact (NoDup_map_eq extId t x u Hnd Hx Hin He).
  - exfalso. pose proof (find_none _ _ E u Hin) as H.
    unfold Repo.has_extId in H. rewrite String.eqb_refl in H. discriminate.
Qed.

(** ** Minting and validating a session *)

Section SessionFacts.

Variable hmac : string -> string -> string.
Variable ms : string -> Z.
Variable humanID : string -> option string.
Variable config : ClientConfig.

(** [newUserSession] always resolves: one update of the table, and a token
    signed with the configured key. *)
Lemma newUserSession_eq now userId userExtId timestamp w :
  newUserSession hmac ms config now userId userExtId timestamp w =
  let values :=
    mkUpdateValues None (Some (Some (timestamp * 1000))) (Some (timestamp * 1000)) in
  let expiry := Qplus (inject_Z timestamp) (Qmake (ms (jwtLifetime config)) 1000) in
  (Resolved
     (mkUserSession
        (Jwt.Signed
           (Jwt.mkPayload (JS.floor_div1000 now) expiry
              (Jwt.mkSessionData userExtId
                 (createSessionId hmac config userExtId timestamp)))
           (jwtSecret config))
        expiry),
   record (Call_update values userId)
     (with_table (Repo.update_rows now values userId (AppUserTable w)) w)).
Proof. reflexivity. Qed.

(** Validation reads the table and never writes it. *)
Lemma validateUserSession_table now t w :
  AppUserTable (snd (validateUserSession hmac config now t w)) = AppUserTable w.
Proof.
  unfold validateUserSession, verifyJWT, bind.
  destruct (Jwt.verify now t (jwtSecret config)) as [[|]|p]; simpl; try reflexivity.
  destruct (find _ _) as [u|]; simpl; [|reflexivity].
  destruct (negb _); reflexivity.
Qed.

(** Every rejection of [validateUserSession] is an [Unauthorized]. *)
Lemma validateUserSession_rejects_unauthorized now t w e :
  fst (validateUserSession hmac config now t w) = Rejected e ->
  Unauthorized e = true.
Proof.
  unfold validateUserSession, verifyJWT, bind.
  destruct (Jwt.verify now t (jwtSecret config)) as [[|]|p]; simpl.
  - intros [= <-]. reflexivity.
  - intros [= <-]. reflexivity.
  - destruct (find _ _) as [u|]; simpl.
    + destruct (negb _); simpl; [|discriminate]. intros [= <-]. reflexivity.
    + intros [= <-]. reflexivity.
Qed.

(** What an accepted token tells about the token and about the table. *)
Lemma validateUserSession_resolved_inv now t w s :
  fst (validateUserSession hmac config now t w) = Resolved s ->
  exists p u,
    t = Some (Jwt.Signed p (jwtSecret config)) /\
    find (Repo.has_extId (Jwt.userId (Jwt.data p))) (AppUserTable w) = Some u /\
    createSessionId hmac config (extId u) (marker u) = Jwt.sessionId (Jwt.data p) /\
    s = Session.mk (id u) (extId u).
Proof.
  unfold validateUserSession, verifyJWT, bind, Jwt.verify.
  destruct t as [[p key|bad]|]; simpl; try discriminate.
  destruct (String.eqb_spec key (jwtSecret config)) as [->|]; simpl; [|discriminate].
  destruct (Qle_bool _ _); simpl; [discriminate|].
  destruct (find _ _) as [u|] eqn:Hfind; simpl; [|discriminate].
  fold (marker u).
  destruct (String.eqb_spec (createSessionId hmac config (extId u) (marker u))
              (Jwt.sessionId (Jwt.data p))) as [Heq|]; simpl; [|discriminate].
  intros [= <-]. exists p, u. auto.
Qed.

(** A token signed with the configured key, not yet expired, whose user
    exists and whose fingerprint is the current one, is accepted. *)
Lemma validateUserSession_accepts now p u w :
  Qlt (inject_Z (JS.floor_div1000 now)) (Jwt.exp p) ->
  find (Repo.has_extId (Jwt.userId (Jwt.data p))) (AppUserTable w) = Some u ->
  createSessionId hmac config (extId u) (marker u) = Jwt.sessionId (Jwt.data p) ->
  fst (validateUserSession hmac config now (Some (Jwt.Signed p (jwtSecret config))) w)
  = Resolved (Session.mk (id u) (extId u)).
Proof.
  intros Hexp Hfind Hfp.
  unfold validateUserSession, verifyJWT, bind, Jwt.verify.
  rewrite String.eqb_refl, (Qle_bool_false _ _ Hexp). simpl.
  rewrite Hfind. simpl. fold (marker u). rewrite Hfp, String.eqb_refl. reflexivity.
Qed.

(** A token whose fingerprint is not the current one of its user is
    rejected, whatever the clock. *)
Lemma validateUserSession_stale now t p key u w :
  t = Some (Jwt.Signed p key) ->
  find (Repo.has_extId (Jwt.userId (Jwt.data p))) (AppUserTable w) = Some u ->
  createSessionId hmac config (extId u) (marker u) <> Jwt.sessionId (Jwt.data p) ->
  exists e,
    fst (validateUserSession hmac config now t w) = Rejected e /\
    Unauthorized e = true.
Proof.
  intros -> Hfind Hfp.
  destruct (fst (validateUserSession hmac config now (Some (Jwt.Signed p key)) w))
    as [s|e] eqn:E.
  - exfalso. apply validateUserSession_resolved_inv in E.
    destruct E as (p' & u' & [= <- _] & Hfind' & Hfp' & _).
    rewrite Hfind in Hfind'. injection Hfind' as <-. contradiction.
  - exists e. split; [reflexivity|].
    eapply validateUserSession_rejects_unauthorized. exact E.
Qed.

(** Fingerprints of one user differ when the markers differ. *)
Lemma createSessionId_inj ext m1 m2 :
  collision_free hmac (sessionIdSecret config) ->
  createSessionId hmac config ext m1 = createSessionId hmac config ext m2 ->
  m1 = m2.
Proof.
  intros Hfree H. unfold createSessionId in H.
  apply Hfree in H. apply append_cancel_l in H. apply append_cancel_l in H.
  now apply to_string_inj.
Qed.

(** The row of a user after [newUserSession]: found by the same external
    id, with the marker of the new session. *)
Lemma find_after_newUserSession now u e timestamp w :
  find (Repo.has_extId e) (AppUserTable w) = Some u ->
  exists u',
    find (Repo.has_extId e)
      (AppUserTable (snd (newUserSession hmac ms config now (id u) (extId u) timestamp w)))
    = Some u' /\
    identity u' = identity u /\ marker u' = timestamp.
Proof.
  intros Hfind. rewrite newUserSession_eq. simpl.
  rewrite find_extId_update_rows, Hfind. simpl. rewrite has_id_refl.
  eexists. split; [reflexivity|]. split; [reflexivity|].
  unfold marker. simpl. apply getUnixTime_millis.
Qed.

End SessionFacts.


(** ** One session after another *)

Section Rotation.

Variable hmac : string -> string -> string.
Variable ms : string -> Z.
Variable humanID : string -> option string.
Variable config : ClientConfig.

(** The token [newUserSession] returns is accepted on the world it leaves,
    at any clock before the expiry, for the user its external id resolves
    to. *)
Lemma newUserSession_accepted now now' u timestamp w :
  find (Repo.has_extId (extId u)) (AppUserTable w) = Some u ->
  Qlt (inject_Z (JS.floor_div1000 now'))
      (Qplus (inject_Z timestamp) (Qmake (ms (jwtLifetime config)) 1000)) ->
  let r := newUserSession hmac ms config now (id u) (extId u) timestamp w in
  forall s, fst r = Resolved s ->
  fst (validateUserSession hmac config now' (Some (token s)) (snd r))
  = Resolved (Session.mk (id u) (extId u)).
Proof.
  intros Hfind Hexp r s Hs.
  destruct (find_after_newUserSession hmac ms config now u (extId u) timestamp w Hfind)
    as (u' & Hfind' & Hid & Hmark).
  fold r in Hfind'.
  unfold r in Hs. rewrite newUserSession_eq in Hs. cbv zeta in Hs.
  cbn [fst] in Hs. injection Hs as <-. cbn [token].
  injection Hid as Hid1 Hid2 Hid3.
  replace (Session.mk (id u) (extId u)) with (Session.mk (id u') (extId u'))
    by congruence.
  apply validateUserSession_accepts.
  - exact Hexp.
  - cbn [Jwt.userId Jwt.data]. exact Hfind'.
  - cbn [Jwt.sessionId Jwt.data]. rewrite Hmark, Hid2. reflexivity.
Qed.

(** A token that carries the fingerprint of another marker is rejected on
    the world [newUserSession] leaves, whatever the clock. *)
Lemma newUserSession_supersedes now now' u timestamp w p key earlier :
  collision_free hmac (sessionIdSecret config) ->
  find (Repo.has_extId (extId u)) (AppUserTable w) = Some u ->
  Jwt.data p = Jwt.mkSessionData (extId u) (createSessionId hmac config (extId u) earlier) ->
  earlier <> timestamp ->
  exists e,
    fst (validateUserSession hmac config now' (Some (Jwt.Signed p key))
           (snd (newUserSession hmac ms config now (id u) (extId u) timestamp w)))
    = Rejected e /\
    Unauthorized e = true.
Proof.
  intros Hfree Hfind Hdata Hneq.
  destruct (find_after_newUserSession hmac ms config now u (extId u) timestamp w Hfind)
    as (u' & Hfind' & Hid & Hmark).
  injection Hid as Hid1 Hid2 Hid3.
  eapply validateUserSession_stale with (u := u').
  - reflexivity.
  - rewrite Hdata. cbn [Jwt.userId]. exact Hfind'.
  - rewrite Hdata. cbn [Jwt.sessionId]. rewrite Hmark, Hid2.
    intros Heq. apply createSessionId_inj in Heq; [|exact Hfree]. congruence.
Qed.

End Rotation.

(** ** The table only grows *)

Lemma find_userHash_identity h t :
  option_map identity (find (Repo.has_userHash h) t)
  = find (carries h) (map identity t).
Proof.
  induction t as [|x t IH]; simpl; [reflexivity|].
  unfold carries at 1. simpl. unfold Repo.has_userHash at 1.
  destruct (String.eqb (userHash x) h); [reflexivity | exact IH].
Qed.

Lemma rows_of_identity h t :
  rows_of h t = List.length (filter (carries h) (map identity t)).
Proof.
  unfold rows_of. induction t as [|x t IH]; simpl; [reflexivity|].
  unfold carries at 1. simpl. unfold Repo.has_userHash at 1.
  destruct (String.eqb (userHash x) h); simpl; congruence.
Qed.

Lemma find_app_some {A} (p : A -> bool) l1 l2 x :
  find p l1 = Some x -> find p (l1 ++ l2) = Some x.
Proof.
  induction l1 as [|a l1 IH]; simpl; [discriminate|].
  destruct (p a); auto.
Qed.

Lemma find_app_none {A} (p : A -> bool) l1 l2 :
  find p l1 = None -> find p (l1 ++ l2) = find p l2.
Proof.
  induction l1 as [|a l1 IH]; simpl; [reflexivity|].
  destruct (p a); [discriminate | auto].
Qed.

Lemma find_identity_same h t t' u :
  map identity t' = map identity t ->
  find (Repo.has_userHash h) t = Some u ->
  exists u', find (Repo.has_userHash h) t' = Some u' /\ identity u' = identity u.
Proof.
  intros Hmap Hfind.
  pose proof (find_userHash_identity h t') as H'.
  rewrite Hmap, <- find_userHash_identity, Hfind in H'. simpl in H'.
  destruct (find (Repo.has_userHash h) t') as [u'|]; simpl in H'; [|discriminate].
  exists u'. split; [reflexivity | congruence].
Qed.

Lemma grows_settled h t t' : grows t t' -> settled h t t'.
Proof.
  intros [Hmap | u Hmap Hnone] x Hfind.
  - split.
    + eapply find_identity_same; eauto.
    + rewrite !rows_of_identity, Hmap. reflexivity.
  - assert (Hother : carries h (identity u) = false).
    { unfold carries. simpl. destruct (String.eqb_spec (userHash u) h) as [E|]; auto.
      rewrite E in Hnone. congruence. }
    split.
    + pose proof (find_userHash_identity h t') as H'.
      pose proof (find_userHash_identity h t) as H.
      rewrite Hfind in H. simpl in H. symmetry in H.
      rewrite Hmap, (find_app_some _ _ _ _ H) in H'.
      destruct (find (Repo.has_userHash h) t') as [u'|]; simpl in H'; [|discriminate].
      exists u'. split; [reflexivity | congruence].
    + rewrite !rows_of_identity, Hmap, filter_app, length_app. simpl.
      rewrite Hother. simpl. lia.
Qed.

Lemma settled_refl h t : settled h t t.
Proof. intros u Hfind. split; [exists u; auto | reflexivity]. Qed.

Lemma settled_trans h t1 t2 t3 :
  settled h t1 t2 -> settled h t2 t3 -> settled h t1 t3.
Proof.
  intros H12 H23 u Hfind.
  destruct (H12 u Hfind) as [(u2 & Hfind2 & Hid2) Hrows2].
  destruct (H23 u2 Hfind2) as [(u3 & Hfind3 & Hid3) Hrows3].
  split; [exists u3; split; congruence | congruence].
Qed.

Section Requests.

Variable hmac : string -> string -> string.
Variable ms : string -> Z.
Variable humanID : string -> option string.
Variable config : ClientConfig.

Lemma newUserSession_grows now pk ext timestamp w :
  grows (AppUserTable w)
    (AppUserTable (snd (newUserSession hmac ms config now pk ext timestamp w))).
Proof.
  rewrite newUserSession_eq. simpl. apply grows_same. apply identity_update_rows.
Qed.

Lemma handleValidateUserSession_table env req w :
  AppUserTable (snd (handleValidateUserSession hmac config env req w)) = AppUserTable w.
Proof.
  unfold handleValidateUserSession, bind.
  pose proof (validateUserSession_table hmac config (clock env)
                (header_userAccessToken req) w) as H.
  destruct (validateUserSession _ _ _ _ _) as [[s|e] w']; exact H.
Qed.

(** The log-in handler, once the exchange token is there and humanID
    answers with a hash: find or create, then a new session. *)
Lemma handleLogIn_eq env req w exchange h :
  exchangeToken (body req) = Some exchange ->
  humanID exchange = Some h ->
  handleLogIn hmac ms humanID config env req w =
  let found :=
    Repo.findOrCreate (clock env) h
      (Repo.mkDefaults (generateExtId (clock env)) h (randomName env))
      (record (Call_verifyExchangeToken exchange) w) in
  match fst found with
  | Resolved (user, _) =>
      let minted :=
        newUserSession hmac ms config (clock env) (id user) (extId user)
          (getUnixTime (clock env)) (snd found) in
      match fst minted with
      | Resolved session => (Resolved (SessionResponse session), snd minted)
      | Rejected e => (Rejected e, snd minted)
      end
  | Rejected e => (Rejected e, snd found)
  end.
Proof.
  intros Hx Hh.
  unfold handleLogIn, bind, validate_required, verifyExchangeToken, bind, call, ret.
  rewrite Hx, Hh. cbv zeta.
  destruct (Repo.findOrCreate _ _ _ _) as [[[user created]|e] wa]; simpl; reflexivity.
Qed.

(** What [findOrCreate] answers and leaves behind. *)
Lemma findOrCreate_found now h d w u :
  find (Repo.has_userHash h) (AppUserTable w) = Some u ->
  Repo.findOrCreate now h d w = (Resolved (u, false), record (Call_findOrCreate h) w).
Proof. intros H. unfold Repo.findOrCreate. rewrite H. reflexivity. Qed.

Lemma findOrCreate_resolves now h ext name w :
  exists u created w',
    Repo.findOrCreate now h (Repo.mkDefaults ext h name) w = (Resolved (u, created), w') /\
    find (Repo.has_userHash h) (AppUserTable w') = Some u /\
    grows (AppUserTable w) (AppUserTable w') /\
    (find (Repo.has_userHash h) (AppUserTable w) = None -> rows_of h (AppUserTable w') = 1%nat) /\
    (find (Repo.has_userHash h) (AppUserTable w) <> None ->
     AppUserTable w' = AppUserTable w).
Proof.
  unfold Repo.findOrCreate.
  destruct (find (Repo.has_userHash h) (AppUserTable w)) as [u|] eqn:Hfind.
  - exists u, false, (record (Call_findOrCreate h) w). simpl.
    repeat split; auto.
    + apply grows_same. reflexivity.
    + discriminate.
  - eexists _, true, _. split; [reflexivity|]. simpl.
    split; [|split; [|split]].
    + rewrite (find_app_none _ _ _ Hfind). simpl.
      unfold Repo.has_userHash. simpl. rewrite String.eqb_refl. reflexivity.
    + eapply grows_new with (u := mkAppUser (autoIncrement w) ext h (Some name) None now now).
      * rewrite map_app. reflexivity.
      * exact Hfind.
    + intros _. unfold rows_of. rewrite filter_app, length_app. simpl.
      unfold Repo.has_userHash at 2. simpl. rewrite String.eqb_refl. simpl.
      assert (Hnil : filter (Repo.has_userHash h) (AppUserTable w) = []).
      { clear -Hfind. induction (AppUserTable w) as [|x t IH]; simpl in *; [reflexivity|].
        destruct (Repo.has_userHash h x); [discriminate | auto]. }
      rewrite Hnil. reflexivity.
    + congruence.
Qed.

Lemma grows_then_same t t1 t2 :
  grows t t1 -> map identity t2 = map identity t1 -> grows t t2.
Proof.
  intros [Hmap | u Hmap Hnone] H2.
  - apply grows_same. congruence.
  - eapply grows_new with (u := u); [congruence | exact Hnone].
Qed.

(** A log-in that passes the gate with a verified exchange token resolves;
    the row of the person is then in the table, the token names its
    external id and the session update went to its key. *)
Lemma login_resolves env req w exchange h :
  header_clientSecret req = appSecret config ->
  exchangeToken (body req) = Some exchange ->
  humanID exchange = Some h ->
  let after := post_users_log_in hmac ms humanID config env req w in
  let seconds := getUnixTime (clock env) in
  let expiry := Qplus (inject_Z seconds) (Qmake (ms (jwtLifetime config)) 1000) in
  exists u p v,
    fst after = Resolved (SessionResponse (mkUserSession (Jwt.Signed p (jwtSecret config)) expiry)) /\
    Jwt.data p = Jwt.mkSessionData (extId u) (createSessionId hmac config (extId u) seconds) /\
    Jwt.exp p = expiry /\
    find (Repo.has_userHash h) (AppUserTable (snd after)) = Some u /\
    marker u = seconds /\
    last (calls (snd after)) Call_logger_debug = Call_update v (id u) /\
    grows (AppUserTable w) (AppUserTable (snd after)) /\
    (forall u0, find (Repo.has_userHash h) (AppUserTable w) = Some u0 ->
       identity u = identity u0 /\
       List.length (AppUserTable (snd after)) = List.length (AppUserTable w)) /\
    (find (Repo.has_userHash h) (AppUserTable w) = None ->
       rows_of h (AppUserTable (snd after)) = 1%nat).
Proof.
  intros Hsecret Hx Hh. cbv zeta.
  assert (Hgate : strict_neq (header_clientSecret req) (appSecret config) = false).
  { destruct (strict_neq _ _) eqn:E; [|reflexivity].
    apply strict_neq_spec in E. contradiction. }
  unfold post_users_log_in, handleValidateClientApp, bind.
  rewrite Hgate. cbn [ret].
  rewrite (handleLogIn_eq env req w exchange h Hx Hh). cbv zeta.
  destruct (findOrCreate_resolves (clock env) h (generateExtId (clock env))
              (randomName env) (record (Call_verifyExchangeToken exchange) w))
    as (u & created & wa & Hfc & Hfind & Hgrows & Hone & Hsame).
  rewrite Hfc. cbn [fst snd].
  rewrite newUserSession_eq. cbv zeta. cbn [fst snd].
  set (values := mkUpdateValues None (Some (Some (getUnixTime (clock env) * 1000)))
                   (Some (getUnixTime (clock env) * 1000))).
  exists (Repo.apply_values (clock env) values u).
  eexists (Jwt.mkPayload _ _ _), values.
  split; [reflexivity|]. split; [reflexivity|]. split; [reflexivity|].
  cbn [AppUserTable calls record with_table].
  split; [|split; [|split; [|split; [|split]]]].
  - rewrite find_userHash_update_rows, Hfind. cbn [option_map].
    rewrite has_id_refl. reflexivity.
  - unfold marker. simpl. apply getUnixTime_millis.
  - rewrite last_last. reflexivity.
  - eapply grows_then_same; [exact Hgrows | apply identity_update_rows].
  - intros u0 Hu0.
    assert (Hw : AppUserTable wa = AppUserTable w).
    { apply Hsame. cbn [AppUserTable record]. congruence. }
    split.
    + rewrite identity_apply_values. f_equal.
      rewrite Hw in Hfind. congruence.
    + unfold Repo.update_rows. rewrite length_map. now rewrite Hw.
  - intros Hnone.
    rewrite rows_of_identity, identity_update_rows, <- rows_of_identity.
    apply Hone. exact Hnone.
Qed.

(** A log-in of a person who has a row mints a session for that row. *)
Lemma login_existing env req w exchange h u :
  header_clientSecret req = appSecret config ->
  exchangeToken (body req) = Some exchange ->
  humanID exchange = Some h ->
  find (Repo.has_userHash h) (AppUserTable w) = Some u ->
  exists w',
    AppUserTable w' = AppUserTable w /\
    let minted :=
      newUserSession hmac ms config (clock env) (id u) (extId u)
        (getUnixTime (clock env)) w' in
    post_users_log_in hmac ms humanID config env req w =
    (match fst minted with
     | Resolved s => Resolved (SessionResponse s)
     | Rejected e => Rejected e
     end, snd minted).
Proof.
  intros Hsecret Hx Hh Hfind.
  assert (Hgate : strict_neq (header_clientSecret req) (appSecret config) = false).
  { destruct (strict_neq _ _) eqn:E; [|reflexivity].
    apply strict_neq_spec in E. contradiction. }
  exists (record (Call_findOrCreate h) (record (Call_verifyExchangeToken exchange) w)).
  split; [reflexivity|]. cbv zeta.
  unfold post_users_log_in, handleValidateClientApp, bind.
  rewrite Hgate. cbn [ret].
  rewrite (handleLogIn_eq env req w exchange h Hx Hh). cbv zeta.
  rewrite (findOrCreate_found (clock env) h _ _ u) by exact Hfind.
  cbn [fst snd]. rewrite newUserSession_eq. reflexivity.
Qed.

(** A refresh behind an accepted token mints a session for the user the
    token resolved to. *)
Lemma refresh_accepted env req w session :
  fst (validateUserSession hmac config (clock env) (header_userAccessToken req) w)
  = Resolved session ->
  exists w',
    AppUserTable w' = AppUserTable w /\
    let minted :=
      newUserSession hmac ms config (clock env) (Session.id session)
        (Session.extId session) (getUnixTime (clock env)) w' in
    put_users_refresh_session hmac ms config env req w =
    (match fst minted with
     | Resolved s => Resolved (SessionResponse s)
     | Rejected e => Rejected e
     end, snd minted).
Proof.
  intros Hval.
  pose proof (validateUserSession_table hmac config (clock env)
                (header_userAccessToken req) w) as Htable.
  unfold put_users_refresh_session, handleValidateUserSession, bind.
  destruct (validateUserSession _ _ _ _ _) as [[s|e] w']; [|discriminate].
  cbn [fst snd] in *. injection Hval as ->.
  exists w'. split; [exact Htable|]. cbv zeta.
  cbn [ret]. unfold handleRefreshSession. cbn [userAccess set_userAccess].
  unfold bind. rewrite newUserSession_eq. reflexivity.
Qed.

(** A log-out behind an accepted token clears [lastLogIn] of the rows with
    the key the token resolved to. *)
Lemma logout_accepted env req w session :
  fst (validateUserSession hmac config (clock env) (header_userAccessToken req) w)
  = Resolved session ->
  fst (put_users_log_out hmac config env req w) = Resolved NoData /\
  AppUserTable (snd (put_users_log_out hmac config env req w)) =
  Repo.update_rows (clock env)
    (mkUpdateValues None (Some None) (Some (clock env)))
    (Session.id session) (AppUserTable w).
Proof.
  intros Hval.
  pose proof (validateUserSession_table hmac config (clock env)
                (header_userAccessToken req) w) as Htable.
  unfold put_users_log_out, handleLogOut, bind, attempt.
  destruct (validateUserSession _ _ _ _ _) as [[s|e] w']; [|discriminate].
  cbn [fst snd] in *. injection Hval as ->.
  split; [reflexivity|]. simpl. now rewrite Htable.
Qed.

(** Every route lets the table grow at most. *)
Lemma serve_grows r env req w :
  grows (AppUserTable w)
    (AppUserTable (snd (serve hmac ms humanID config r env req w))).
Proof.
  destruct r; cbn [serve].
  - (* log-in *)
    unfold post_users_log_in, handleValidateClientApp, bind.
    destruct (strict_neq _ _); cbn [ret throw snd];
      [apply grows_same; reflexivity|].
    destruct (exchangeToken (body req)) as [exchange|] eqn:Hx.
    + destruct (humanID exchange) as [h|] eqn:Hh.
      * rewrite (handleLogIn_eq env req w exchange h Hx Hh). cbv zeta.
        destruct (findOrCreate_resolves (clock env) h (generateExtId (clock env))
                    (randomName env) (record (Call_verifyExchangeToken exchange) w))
          as (u & created & wa & Hfc & _ & Hgrows & _).
        rewrite Hfc. cbn [fst snd]. rewrite newUserSession_eq. cbv zeta.
        cbn [fst snd AppUserTable record with_table].
        eapply grows_then_same; [exact Hgrows | apply identity_update_rows].
      * unfold handleLogIn, bind, validate_required, verifyExchangeToken, bind, call.
        rewrite Hx. cbn [ret]. rewrite Hh. simpl. apply grows_same. reflexivity.
    + unfold handleLogIn, bind, validate_required. rewrite Hx. simpl.
      apply grows_same. reflexivity.
  - (* profile *)
    unfold get_users_profile, bind.
    pose proof (handleValidateUserSession_table env req w) as Htable.
    destruct (handleValidateUserSession _ _ _ _ _) as [[req'|e] w'];
      cbn [snd] in *; apply grows_same; [|now rewrite Htable].
    unfold handleGetProfile.
    destruct (userAccess req') as [user|]; simpl; [|now rewrite Htable].
    unfold Repo.findByPk, bind. simpl.
    destruct (find _ _); simpl; now rewrite Htable.
  - (* refresh *)
    unfold put_users_refresh_session, bind.
    pose proof (handleValidateUserSession_table env req w) as Htable.
    destruct (handleValidateUserSession _ _ _ _ _) as [[req'|e] w'];
      cbn [snd] in *; apply grows_same; [|now rewrite Htable].
    unfold handleRefreshSession.
    destruct (userAccess req') as [user|]; simpl; [|now rewrite Htable].
    rewrite identity_update_rows. now rewrite Htable.
  - (* update profile *)
    unfold put_users_profile, bind.
    pose proof (handleValidateUserSession_table env req w) as Htable.
    destruct (handleValidateUserSession _ _ _ _ _) as [[req'|e] w'];
      cbn [snd] in *; apply grows_same; [|now rewrite Htable].
    unfold handleUpdateProfile.
    destruct (userAccess req') as [user|]; simpl; [|now rewrite Htable].
    rewrite identity_update_rows. now rewrite Htable.
  - (* log-out *)
    unfold put_users_log_out, handleLogOut, bind, attempt.
    pose proof (validateUserSession_table hmac config (clock env)
                  (header_userAccessToken req) w) as Htable.
    destruct (validateUserSession _ _ _ _ _) as [[s|e] w'];
      cbn [snd] in *; apply grows_same; simpl.
    + rewrite identity_update_rows. now rewrite Htable.
    + now rewrite Htable.
Qed.

(** Whatever requests are served, a person who has a row keeps it. *)
Lemma serve_all_settled h l w :
  settled h (AppUserTable w)
    (AppUserTable (serve_all hmac ms humanID config l w)).
Proof.
  revert w. induction l as [|[[r env] req] l IH]; intros w; cbn [serve_all].
  - apply settled_refl.
  - eapply settled_trans; [|apply IH].
    apply grows_settled. apply serve_grows.
Qed.

End Requests.

(** ** Required fields *)

(** The log-in route checks its required field: without an exchange token
    it is rejected as a bad request, before humanID is asked. *)
Lemma login_requires_exchangeToken hmac ms humanID config env req w :
  header_clientSecret req = appSecret config ->
  exchangeToken (body req) = None ->
  post_users_log_in hmac ms humanID config env req w
  = (Rejected (APIError RESPONSE_ERROR_BAD_REQUEST None), w).
Proof.
  intros Hsecret Hx.
  assert (Hgate : strict_neq (header_clientSecret req) (appSecret config) = false).
  { destruct (strict_neq _ _) eqn:E; [|reflexivity].
    apply strict_neq_spec in E. contradiction. }
  unfold post_users_log_in, handleValidateClientApp, bind. rewrite Hgate. cbn [ret].
  unfold handleLogIn, bind, validate_required. rewrite Hx. reflexivity.
Qed.

(** The profile-update route has no such check: whatever the body, it is
    never rejected as a bad request. *)
Lemma update_profile_never_bad_request hmac config env req w e :
  fst (put_users_profile hmac config env req w) = Rejected e ->
  ValidationFailed e = false.
Proof.
  unfold put_users_profile, handleValidateUserSession, bind.
  destruct (validateUserSession hmac config (clock env) (header_userAccessToken req) w)
    as [[s|e'] w'] eqn:Hval; cbn [ret fst].
  - unfold handleUpdateProfile. cbn [userAccess set_userAccess]. simpl. discriminate.
  - intros [= <-].
    assert (H : Unauthorized e' = true).
    { eapply validateUserSession_rejects_unauthorized. rewrite Hval. reflexivity. }
    destruct e' as [[| | | |] src|]; simpl in *; congruence.
Qed.

(** ** The demo deployment *)

Lemma demo_hmac_collision_free (k : string) : collision_free Demo.hmac k.
Proof.
  intros a b H. unfold Demo.hmac in H.
  apply append_cancel_l in H. apply append_cancel_l in H. exact H.
Qed.

(* ================================================================= *)
(** * The properties of the specification *)

(** C3, fresh-token round trip, as the code has it.  For every row [u]
    that its own external id resolves to (no earlier row of the table
    carries the same external id) and every integer [nowSeconds] whose
    milliseconds are a [Date]: [newUserSession] for that user at
    [nowSeconds] resolves, stores [lastLogIn = nowSeconds * 1000], the
    marker recovered from the stored value is [nowSeconds] again, and
    validating the returned token, at any clock before its expiry,
    resolves to [{id, extId}] of that user. *)
Theorem fresh_token_round_trip
  (hmac : string -> string -> string) (ms : string -> Z) (config : ClientConfig)
  (u : AppUser) (w : World) (now now' : JS.Date) (nowSeconds : Z) :
  find (Repo.has_extId (extId u)) (AppUserTable w) = Some u ->
  valid_Date (nowSeconds * 1000) ->
  Qlt (inject_Z (JS.floor_div1000 now'))
      (Qplus (inject_Z nowSeconds) (Qmake (ms (jwtLifetime config)) 1000)) ->
  exists s w' u',
    newUserSession hmac ms config now (id u) (extId u) nowSeconds w = (Resolved s, w') /\
    find (Repo.has_extId (extId u)) (AppUserTable w') = Some u' /\
    lastLogIn u' = Some (nowSeconds * 1000) /\
    marker u' = nowSeconds /\
    fst (validateUserSession hmac config now' (Some (token s)) w')
    = Resolved (Session.mk (id u) (extId u)).
Proof.
  intros Hfind _ Hexp.
  rewrite newUserSession_eq. cbv zeta.
  eexists _, _, _. split; [reflexivity|].
  cbn [AppUserTable record with_table token].
  rewrite find_extId_update_rows, Hfind. cbn [option_map]. rewrite has_id_refl.
  split; [reflexivity|]. split; [reflexivity|].
  split; [unfold marker; simpl; apply getUnixTime_millis|].
  match goal with
  | |- fst (validateUserSession _ _ _ (Some (Jwt.Signed ?p _)) ?w0) = _ =>
      pose proof (validateUserSession_accepts hmac config now' p
                    (Repo.apply_values now
                       (mkUpdateValues None (Some (Some (nowSeconds * 1000)))
                          (Some (nowSeconds * 1000))) u) w0) as H
  end.
  apply H; clear H.
  - exact Hexp.
  - cbn [Jwt.userId Jwt.data AppUserTable record with_table].
    rewrite find_extId_update_rows, Hfind. cbn [option_map].
    rewrite has_id_refl. reflexivity.
  - cbn [Jwt.sessionId Jwt.data]. unfold marker. simpl.
    rewrite getUnixTime_millis. reflexivity.
Qed.

(** C4, expiry precedence.  A token whose [exp] is strictly before the
    verifier's clock is rejected with an [Unauthorized] error and the world
    is left as it was: no row is looked up and no fingerprint is computed,
    whatever the table holds.  When the signature is good the error is the
    expired-session one. *)
Theorem expiry_precedence
  (hmac : string -> string -> string) (config : ClientConfig)
  (now : JS.Date) (p : Jwt.Payload) (key : string) (w : World) :
  Qlt (Jwt.exp p) (inject_Z (JS.floor_div1000 now)) ->
  exists e,
    validateUserSession hmac config now (Some (Jwt.Signed p key)) w = (Rejected e, w) /\
    Unauthorized e = true /\
    (key = jwtSecret config -> e = SessionExpired).
Proof.
  intros Hexp.
  unfold validateUserSession, verifyJWT, bind, Jwt.verify.
  rewrite (Qle_bool_true _ _ Hexp).
  destruct (String.eqb_spec key (jwtSecret config)) as [Hk|Hk]; simpl.
  - exists SessionExpired. auto.
  - exists SessionInvalid. split; [reflexivity|]. split; [reflexivity|].
    intros; contradiction.
Qed.

(** Log-out resolves on every request and every world. *)
Lemma handleLogOut_resolves hmac config env req w :
  fst (handleLogOut hmac config env req w) = Resolved NoData.
Proof.
  unfold handleLogOut, bind, attempt.
  destruct (validateUserSession hmac config (clock env) (header_userAccessToken req) w)
    as [[s|e] w']; reflexivity.
Qed.

(** C5, best-effort log-out.  When validation of the presented token fails,
    the log-out route resolves (with no data), leaves the table and the key
    counter as they were, and its only call after the validation is the
    logging of the failure; no update is issued. *)
Theorem logout_best_effort
  (hmac : string -> string -> string) (config : ClientConfig)
  (env : Env) (req : Request) (w : World) (e : Exn) :
  fst (validateUserSession hmac config (clock env) (header_userAccessToken req) w)
  = Rejected e ->
  let after := put_users_log_out hmac config env req w in
  fst after = Resolved NoData /\
  AppUserTable (snd after) = AppUserTable w /\
  autoIncrement (snd after) = autoIncrement w /\
  calls (snd after) =
    (calls (snd (validateUserSession hmac config (clock env)
                   (header_userAccessToken req) w))
     ++ [Call_logger_error e])%list.
Proof.
  intros Hval. cbv zeta.
  pose proof (validateUserSession_table hmac config (clock env)
                (header_userAccessToken req) w) as Htable.
  assert (Hauto : autoIncrement
            (snd (validateUserSession hmac config (clock env)
                    (header_userAccessToken req) w)) = autoIncrement w).
  { unfold validateUserSession, verifyJWT, bind.
    destruct (Jwt.verify _ _ _) as [[|]|p]; simpl; try reflexivity.
    destruct (find _ _); simpl; [destruct (negb _)|]; reflexivity. }
  unfold put_users_log_out, handleLogOut, bind, attempt.
  destruct (validateUserSession hmac config (clock env) (header_userAccessToken req) w)
    as [[s|e'] w'].
  - discriminate.
  - simpl in *. injection Hval as ->. auto.
Qed.

(** C6, client-secret gate.  When the [clientSecret] header is not the
    configured secret, the log-in route is rejected with [Unauthorized] and
    the world is untouched: no call at all was made, so the exchange token
    never went to humanID. *)
Theorem client_secret_gate
  (hmac : string -> string -> string) (ms : string -> Z)
  (humanID : string -> option string) (config : ClientConfig)
  (env : Env) (req : Request) (w : World) :
  header_clientSecret req <> appSecret config ->
  post_users_log_in hmac ms humanID config env req w
  = (Rejected (APIError RESPONSE_ERROR_UNAUTHORIZED None), w) /\
  Unauthorized (APIError RESPONSE_ERROR_UNAUTHORIZED None) = true /\
  forall exchange,
    In (Call_verifyExchangeToken exchange)
       (calls (snd (post_users_log_in hmac ms humanID config env req w))) ->
    In (Call_verifyExchangeToken exchange) (calls w).
Proof.
  intros Hneq. apply strict_neq_spec in Hneq.
  unfold post_users_log_in, handleValidateClientApp, bind.
  rewrite Hneq. simpl. auto.
Qed.

(** C8, token construction, as the code has it.  [newUserSession] resolves
    to a token signed with the configured key whose payload carries
    [exp = timestamp + ms(jwtLifetime) / 1000] in seconds of Unix epoch and
    [data = {userId: userExtId, sessionId: fingerprint}]; the [expiredAt]
    returned with it is that [exp], a whole number of seconds when the
    lifetime is.  The [iat] of the payload is the signing clock rounded
    down to whole seconds, which is the [timestamp] of the handlers (the
    clock rounded to nearest) or one second less. *)
Theorem token_construction
  (hmac : string -> string -> string) (ms : string -> Z) (config : ClientConfig)
  (now : JS.Date) (userId : Z) (userExtId : string) (timestamp : Z) (w : World) :
  exists p,
    fst (newUserSession hmac ms config now userId userExtId timestamp w)
    = Resolved (mkUserSession (Jwt.Signed p (jwtSecret config)) (Jwt.exp p)) /\
    Jwt.exp p = Qplus (inject_Z timestamp) (Qmake (ms (jwtLifetime config)) 1000) /\
    Jwt.data p =
      Jwt.mkSessionData userExtId (createSessionId hmac config userExtId timestamp) /\
    (ms (jwtLifetime config) mod 1000 = 0 ->
     Qeq (Jwt.exp p) (inject_Z (timestamp + ms (jwtLifetime config) / 1000))) /\
    Jwt.iat p = JS.floor_div1000 now /\
    (Jwt.iat p <= getUnixTime now <= Jwt.iat p + 1).
Proof.
  rewrite newUserSession_eq. cbv zeta.
  eexists (Jwt.mkPayload _ _ _). cbn [fst Jwt.exp Jwt.data Jwt.iat].
  split; [reflexivity|]. split; [reflexivity|]. split; [reflexivity|].
  split; [|split; [reflexivity | apply floor_le_getUnixTime]].
  intros Hwhole. unfold Qeq, Qplus, inject_Z. cbn [Qnum Qden].
  pose proof (Z.div_mod (ms (jwtLifetime config)) 1000) as Hdiv.
  lia.
Qed.

(** C10, forged tokens.  A token whose signature does not verify under the
    configured key (absent and malformed ones included) is rejected with
    the invalid-session error and the world is left as it was: no look-up
    is made, and the outcome is the same on any two worlds. *)
Theorem forged_token_noninterference
  (hmac : string -> string -> string) (config : ClientConfig)
  (now : JS.Date) (t : option Jwt.Token) :
  Jwt.signature_ok t (jwtSecret config) = false ->
  forall w1 w2 : World,
    validateUserSession hmac config now t w1 = (Rejected SessionInvalid, w1) /\
    fst (validateUserSession hmac config now t w1)
    = fst (validateUserSession hmac config now t w2).
Proof.
  intros Hsig.
  assert (H : forall w, validateUserSession hmac config now t w
                        = (Rejected SessionInvalid, w)).
  { intros w. unfold validateUserSession, verifyJWT, bind, Jwt.verify.
    destruct t as [[p key|bad]|]; simpl in *; try reflexivity.
    rewrite Hsig. reflexivity. }
  intros w1 w2. rewrite !H. auto.
Qed.

(** C2, log-out invalidation.  Once a log-out behind an accepted token has
    completed, the row of that user has [lastLogIn = null], the marker
    recomputed from it is [-1], and every token minted for that user by
    [newUserSession], at a timestamp other than the sentinel [-1] itself
    (every clock reading since the epoch is one), is rejected with
    [Unauthorized] at every clock, before its expiry too.  The keyed
    transform is taken without collisions. *)
Theorem logout_invalidation
  (hmac : string -> string -> string) (ms : string -> Z) (config : ClientConfig)
  (env : Env) (req : Request) (w : World) (session : Session.Payload)
  (now0 : JS.Date) (pk0 nowSeconds : Z) (w0 : World) (s0 : UserSession) :
  collision_free hmac (sessionIdSecret config) ->
  fst (validateUserSession hmac config (clock env) (header_userAccessToken req) w)
  = Resolved session ->
  nowSeconds <> -1 ->
  fst (newUserSession hmac ms config now0 pk0 (Session.extId session) nowSeconds w0)
  = Resolved s0 ->
  let after := put_users_log_out hmac config env req w in
  fst after = Resolved NoData /\
  (exists u,
     find (Repo.has_extId (Session.extId session)) (AppUserTable (snd after)) = Some u /\
     id u = Session.id session /\ lastLogIn u = None /\ marker u = -1) /\
  forall now' : JS.Date,
    exists e,
      fst (validateUserSession hmac config now' (Some (token s0)) (snd after))
      = Rejected e /\
      Unauthorized e = true.
Proof.
  intros Hfree Hval Hneq Hmint. cbv zeta.
  destruct (logout_accepted hmac config env req w session Hval) as [Hres Htable].
  apply validateUserSession_resolved_inv in Hval.
  destruct Hval as (p & u & _ & Hfind & _ & ->).
  cbn [Session.id Session.extId] in *.
  destruct (find_has_extId _ _ _ Hfind) as [_ Hext]. rewrite <- Hext in Hfind.
  set (values := mkUpdateValues None (Some None) (Some (clock env))) in *.
  assert (Hfind' :
    find (Repo.has_extId (extId u))
      (AppUserTable (snd (put_users_log_out hmac config env req w)))
    = Some (Repo.apply_values (clock env) values u)).
  { rewrite Htable, find_extId_update_rows, Hfind. cbn [option_map].
    now rewrite has_id_refl. }
  split; [exact Hres|]. split.
  - exists (Repo.apply_values (clock env) values u). auto.
  - intros now'.
    rewrite newUserSession_eq in Hmint. cbv zeta in Hmint. cbn [fst] in Hmint.
    injection Hmint as <-. cbn [token].
    eapply validateUserSession_stale
      with (u := Repo.apply_values (clock env) values u).
    + reflexivity.
    + cbn [Jwt.userId Jwt.data]. exact Hfind'.
    + cbn [Jwt.sessionId Jwt.data].
      change (marker (Repo.apply_values (clock env) values u)) with (-1).
      change (extId (Repo.apply_values (clock env) values u)) with (extId u).
      intros Heq. apply createSessionId_inj in Heq; [|exact Hfree]. congruence.
Qed.

(** C1, single active session, as the code has it.  A log-in mints [T1];
    afterwards a second log-in of the same person, or a refresh behind
    [T1], mints [T2].  When the two requests fall in different whole
    seconds (the clock rounded by [getUnixTime]), [T1] is rejected with
    [Unauthorized] at every clock, before its expiry too, and [T2] is
    accepted, until its expiry, as the user of the first log-in.  The
    external id of the person resolves to the person's own row (no earlier
    row of the table carries the same external id), and the keyed
    transform is taken without collisions. *)
Theorem single_active_session
  (hmac : string -> string -> string) (ms : string -> Z)
  (humanID : string -> option string) (config : ClientConfig)
  (env1 env2 : Env) (req1 req2 : Request) (r2 : Route) (w0 : World)
  (exchange1 h : string) :
  collision_free hmac (sessionIdSecret config) ->
  header_clientSecret req1 = appSecret config ->
  exchangeToken (body req1) = Some exchange1 ->
  humanID exchange1 = Some h ->
  let first := post_users_log_in hmac ms humanID config env1 req1 w0 in
  (forall u,
     find (Repo.has_userHash h) (AppUserTable (snd first)) = Some u ->
     find (Repo.has_extId (extId u)) (AppUserTable (snd first)) = Some u) ->
  (r2 = POST_users_log_in /\
   header_clientSecret req2 = appSecret config /\
   exists exchange2,
     exchangeToken (body req2) = Some exchange2 /\ humanID exchange2 = Some h)
  \/
  (r2 = PUT_users_refresh_session /\
   header_userAccessToken req2 = response_token
     match fst first with Resolved d => d | Rejected _ => NoData end /\
   Qlt (inject_Z (JS.floor_div1000 (clock env2)))
       (Qplus (inject_Z (getUnixTime (clock env1)))
              (Qmake (ms (jwtLifetime config)) 1000))) ->
  getUnixTime (clock env1) <> getUnixTime (clock env2) ->
  let second := serve hmac ms humanID config r2 env2 req2 (snd first) in
  exists s1 s2 u,
    fst first = Resolved (SessionResponse s1) /\
    fst second = Resolved (SessionResponse s2) /\
    find (Repo.has_userHash h) (AppUserTable (snd first)) = Some u /\
    (forall now : JS.Date,
       exists e,
         fst (validateUserSession hmac config now (Some (token s1)) (snd second))
         = Rejected e /\
         Unauthorized e = true) /\
    (forall now : JS.Date,
       unexpired now s2 ->
       fst (validateUserSession hmac config now (Some (token s2)) (snd second))
       = Resolved (Session.mk (id u) (extId u))).
Proof.
  intros Hfree Hsecret Hx Hh first Hunique Hsecond Hseconds second.
  destruct (login_resolves hmac ms humanID config env1 req1 w0 exchange1 h
              Hsecret Hx Hh)
    as (u & p & v & Hfirst & Hdata & Hexp & Hfind & Hmark & _).
  fold first in Hfirst, Hfind.
  assert (Hext : find (Repo.has_extId (extId u)) (AppUserTable (snd first)) = Some u).
  { apply Hunique. exact Hfind. }
  assert (Hminted : exists w',
    AppUserTable w' = AppUserTable (snd first) /\
    second =
    (match fst (newUserSession hmac ms config (clock env2) (id u) (extId u)
                  (getUnixTime (clock env2)) w') with
     | Resolved s => Resolved (SessionResponse s)
     | Rejected e => Rejected e
     end,
     snd (newUserSession hmac ms config (clock env2) (id u) (extId u)
            (getUnixTime (clock env2)) w'))).
  { destruct Hsecond as [(-> & Hsecret2 & exchange2 & Hx2 & Hh2)
                        | (-> & Htoken & Hlive)].
    - exact (login_existing hmac ms humanID config env2 req2 (snd first)
               exchange2 h u Hsecret2 Hx2 Hh2 Hfind).
    - rewrite Hfirst in Htoken. cbn [response_token token] in Htoken.
      assert (Hval :
        fst (validateUserSession hmac config (clock env2)
               (header_userAccessToken req2) (snd first))
        = Resolved (Session.mk (id u) (extId u))).
      { rewrite Htoken. apply validateUserSession_accepts.
        - rewrite Hexp. exact Hlive.
        - rewrite Hdata. cbn [Jwt.userId]. exact Hext.
        - rewrite Hdata, Hmark. reflexivity. }
      exact (refresh_accepted hmac ms config env2 req2 (snd first) _ Hval). }
  destruct Hminted as (w' & Htable & Hsecond_eq).
  rewrite <- Htable in Hext.
  pose proof (newUserSession_eq hmac ms config (clock env2) (id u) (extId u)
                (getUnixTime (clock env2)) w') as Heq.
  cbv zeta in Heq.
  eexists _, _, u. split; [exact Hfirst|].
  split; [rewrite Hsecond_eq, Heq; reflexivity|].
  split; [exact Hfind|]. split.
  - intros now. rewrite Hsecond_eq. cbn [snd token].
    eapply newUserSession_supersedes; eauto.
  - intros now Hlive. rewrite Hsecond_eq. cbn [snd].
    apply (newUserSession_accepted hmac ms config (clock env2) now u
             (getUnixTime (clock env2)) w' Hext).
    + exact Hlive.
    + rewrite Heq. reflexivity.
Qed.

(** C7, idempotent find-or-create.  Two log-ins whose exchange tokens
    verify to the same hash, with any requests served in between, both
    resolve; the row found for that hash after the second has the [id] and
    the [extId] of the row found after the first; both tokens name that
    [extId] and both session updates go to that [id]; the second log-in
    adds no row, the person has as many rows after it as after the first,
    and exactly one when there was none before the first. *)
Theorem idempotent_find_or_create
  (hmac : string -> string -> string) (ms : string -> Z)
  (humanID : string -> option string) (config : ClientConfig)
  (env1 env2 : Env) (req1 req2 : Request)
  (between : list (Route * Env * Request)) (w0 : World)
  (exchange1 exchange2 h : string) :
  header_clientSecret req1 = appSecret config ->
  header_clientSecret req2 = appSecret config ->
  exchangeToken (body req1) = Some exchange1 ->
  exchangeToken (body req2) = Some exchange2 ->
  humanID exchange1 = Some h ->
  humanID exchange2 = Some h ->
  let first := post_users_log_in hmac ms humanID config env1 req1 w0 in
  let later := serve_all hmac ms humanID config between (snd first) in
  let second := post_users_log_in hmac ms humanID config env2 req2 later in
  exists u1 u2 s1 s2 p1 p2 v1 v2,
    fst first = Resolved (SessionResponse s1) /\
    fst second = Resolved (SessionResponse s2) /\
    find (Repo.has_userHash h) (AppUserTable (snd first)) = Some u1 /\
    find (Repo.has_userHash h) (AppUserTable (snd second)) = Some u2 /\
    id u2 = id u1 /\ extId u2 = extId u1 /\
    token s1 = Jwt.Signed p1 (jwtSecret config) /\
    token s2 = Jwt.Signed p2 (jwtSecret config) /\
    Jwt.userId (Jwt.data p1) = extId u1 /\
    Jwt.userId (Jwt.data p2) = extId u1 /\
    last (calls (snd first)) Call_logger_debug = Call_update v1 (id u1) /\
    last (calls (snd second)) Call_logger_debug = Call_update v2 (id u1) /\
    List.length (AppUserTable (snd second)) = List.length (AppUserTable later) /\
    rows_of h (AppUserTable (snd second)) = rows_of h (AppUserTable (snd first)) /\
    (find (Repo.has_userHash h) (AppUserTable w0) = None ->
     rows_of h (AppUserTable (snd second)) = 1%nat).
Proof.
  intros Hs1 Hs2 Hx1 Hx2 Hh1 Hh2 first later second.
  destruct (login_resolves hmac ms humanID config env1 req1 w0 exchange1 h Hs1 Hx1 Hh1)
    as (u1 & p1 & v1 & Hfirst & Hdata1 & _ & Hfind1 & _ & Hlast1 & _ & _ & Hone).
  fold first in Hfirst, Hfind1, Hlast1, Hone.
  destruct (serve_all_settled hmac ms humanID config h between (snd first) u1 Hfind1)
    as [(ul & Hfindl & Hidl) Hrowsl].
  fold later in Hfindl, Hrowsl.
  destruct (login_resolves hmac ms humanID config env2 req2 later exchange2 h Hs2 Hx2 Hh2)
    as (u2 & p2 & v2 & Hsecond & Hdata2 & _ & Hfind2 & _ & Hlast2 & Hgrows & Hkeep & _).
  fold second in Hsecond, Hfind2, Hlast2, Hgrows, Hkeep.
  destruct (Hkeep ul Hfindl) as [Hid2 Hlen].
  assert (Hid : identity u2 = identity u1) by congruence.
  injection Hid as Hid_id Hid_ext _.
  assert (Hrows : rows_of h (AppUserTable (snd second))
                  = rows_of h (AppUserTable (snd first))).
  { destruct (grows_settled h _ _ Hgrows ul Hfindl) as [_ Hrows2]. congruence. }
  eexists u1, u2, _, _, p1, p2, v1, v2.
  split; [exact Hfirst|]. split; [exact Hsecond|].
  split; [exact Hfind1|]. split; [exact Hfind2|].
  split; [exact Hid_id|]. split; [exact Hid_ext|].
  split; [reflexivity|]. split; [reflexivity|].
  split; [rewrite Hdata1; reflexivity|].
  split; [rewrite Hdata2; cbn [Jwt.userId]; exact Hid_ext|].
  split; [exact Hlast1|].
  split; [rewrite <- Hid_id; exact Hlast2|].
  split; [exact Hlen|]. split; [exact Hrows|].
  intros Hnone. rewrite Hrows. apply Hone. exact Hnone.
Qed.

(** C9, profile update without a display name, on the code.  With an
    accepted token and a body that has no [fullName], the route resolves:
    it is not rejected as a bad request, and the update call goes to the
    table, with no column named. *)
Theorem update_profile_without_name :
  fst Demo.update_without_name = Resolved NoData /\
  last (calls (snd Demo.update_without_name)) Call_logger_debug
  = Call_update (mkUpdateValues None None None) 1 /\
  forall e, ValidationFailed e = true -> fst Demo.update_without_name <> Rejected e.
Proof.
  split; [vm_compute; reflexivity|].
  split; [vm_compute; reflexivity|].
  intros e _. vm_compute. intros H; discriminate H.
Qed.

(* ================================================================= *)
(** * The properties on the demo deployment *)

(** Two mints in the same rounded second: a log-in at 1589009541.600 s and
    a refresh at 1589009542.400 s give two different tokens, and the first
    one is still accepted after the second was minted.  And two log-ins in
    different seconds of a person whose external id an earlier row
    carries: the second token is rejected and the first is still accepted,
    as the user of the earlier row. *)
Lemma single_active_session_same_second :
  (exists s1 s2 w1 w2,
     Demo.run POST_users_log_in 1589009541600 (Demo.login_request "tok-A") Demo.w0
     = (Resolved (SessionResponse s1), w1) /\
     Demo.run PUT_users_refresh_session 1589009542400
       (Demo.session_request (Some (token s1)) None) w1
     = (Resolved (SessionResponse s2), w2) /\
     token s1 <> token s2 /\
     Demo.validate 1589009543000 (Some (token s1)) w2
     = Resolved (Session.mk 1 "1589009542") /\
     Demo.validate 1589009543000 (Some (token s2)) w2
     = Resolved (Session.mk 1 "1589009542")) /\
  (exists s1 s2 w1 w2,
     Demo2.run POST_users_log_in 1589009542300 (Demo.login_request "tok-C") Demo.w1
     = (Resolved (SessionResponse s1), w1) /\
     Demo2.run POST_users_log_in 1589009550000 (Demo.login_request "tok-C") w1
     = (Resolved (SessionResponse s2), w2) /\
     getUnixTime 1589009542300 <> getUnixTime 1589009550000 /\
     map (fun u => (id u, extId u, userHash u)) (AppUserTable w2)
     = [(1, "1589009542", "h1"); (2, "1589009542", "h2")] /\
     Demo.validate 1589009551000 (Some (token s1)) w2
     = Resolved (Session.mk 1 "1589009542") /\
     Demo.validate 1589009551000 (Some (token s2)) w2
     = Rejected (APIError RESPONSE_ERROR_UNAUTHORIZED None)).
Proof.
  split.
  - eexists _, _, _, _.
    split; [vm_compute; reflexivity|].
    split; [vm_compute; reflexivity|].
    split; [vm_compute; intros H; discriminate H|].
    split; vm_compute; reflexivity.
  - eexists _, _, _, _.
    split; [vm_compute; reflexivity|].
    split; [vm_compute; reflexivity|].
    split; [vm_compute; intros H; discriminate H|].
    split; [vm_compute; reflexivity|].
    split; vm_compute; reflexivity.
Qed.

(** A fresh session for the second of two rows that share an external id:
    [newUserSession] writes the row of the user, validation reads the
    earlier row, and the token it has just returned is rejected. *)
Lemma fresh_token_round_trip_shared_extId :
  exists u s w',
    find (Repo.has_id 2) (AppUserTable Demo2.w_shared) = Some u /\
    extId u = "1589009542" /\
    valid_Date (1589009600 * 1000) /\
    newUserSession Demo.hmac Demo.ms Demo.config 1589009600200 (id u) (extId u)
      1589009600 Demo2.w_shared
    = (Resolved s, w') /\
    option_map lastLogIn (find (Repo.has_id 2) (AppUserTable w'))
    = Some (Some (1589009600 * 1000)) /\
    unexpired 1589009601000 s /\
    Demo.validate 1589009601000 (Some (token s)) w'
    = Rejected (APIError RESPONSE_ERROR_UNAUTHORIZED None).
Proof.
  eexists _, _, _.
  split; [vm_compute; reflexivity|].
  split; [vm_compute; reflexivity|].
  split; [unfold valid_Date; lia|].
  split; [vm_compute; reflexivity|].
  split; [vm_compute; reflexivity|].
  split; vm_compute; reflexivity.
Qed.

(** The [iat] of a minted payload is not the timestamp the session was
    minted for: at 1589009541.600 s the handlers pass
    [getUnixTime = 1589009542], the payload carries [iat = 1589009541], and
    its [exp] is not [iat] plus the lifetime.  With a lifetime of 1500 ms
    the [exp] is no whole number of seconds. *)
Lemma token_construction_iat :
  let now := 1589009541600 in
  let issuedAt := getUnixTime now in
  (exists p,
     fst (newUserSession Demo.hmac Demo.ms Demo.config now 1 "1589009542" issuedAt Demo.w1)
     = Resolved (mkUserSession (Jwt.Signed p "jwt-secret") (Jwt.exp p)) /\
     Jwt.iat p <> issuedAt /\
     ~ Qeq (Jwt.exp p) (Qplus (inject_Z (Jwt.iat p)) (Qmake (Demo.ms "1h") 1000))) /\
  (exists p,
     fst (newUserSession Demo.hmac (fun _ => 1500) Demo.config now 1 "1589009542"
            issuedAt Demo.w1)
     = Resolved (mkUserSession (Jwt.Signed p "jwt-secret") (Jwt.exp p)) /\
     ~ Qeq (Jwt.exp p) (inject_Z 1589009543) /\
     ~ Qeq (Jwt.exp p) (inject_Z 1589009544) /\
     Qlt (inject_Z 1589009543) (Jwt.exp p) /\
     Qlt (Jwt.exp p) (inject_Z 1589009544)).
Proof.
  cbv zeta. split.
  - eexists (Jwt.mkPayload _ _ _).
    split; [vm_compute; reflexivity|].
    split; vm_compute; intros H; discriminate H.
  - eexists (Jwt.mkPayload _ _ _).
    split; [vm_compute; reflexivity|].
    split; [vm_compute; intros H; discriminate H|].
    split; [vm_compute; intros H; discriminate H|].
    split; vm_compute; reflexivity.
Qed.

Lemma single_active_session_witness :
  exists s1 s2 u,
    fst Demo.login1 = Resolved (SessionResponse s1) /\
    fst Demo.login2 = Resolved (SessionResponse s2) /\
    find (Repo.has_userHash "h1") (AppUserTable Demo.w1) = Some u /\
    (forall now : JS.Date,
       exists e,
         fst (validateUserSession Demo.hmac Demo.config now (Some (token s1)) Demo.w2)
         = Rejected e /\
         Unauthorized e = true) /\
    (forall now : JS.Date,
       unexpired now s2 ->
       fst (validateUserSession Demo.hmac Demo.config now (Some (token s2)) Demo.w2)
       = Resolved (Session.mk (id u) (extId u))).
Proof.
  apply (single_active_session Demo.hmac Demo.ms Demo.humanID Demo.config
           (Demo.at_time 1589009541600) (Demo.at_time 1589009551600)
           (Demo.login_request "tok-A") (Demo.login_request "tok-B")
           POST_users_log_in Demo.w0 "tok-A" "h1").
  - apply demo_hmac_collision_free.
  - reflexivity.
  - reflexivity.
  - reflexivity.
  - intros u Hu. vm_compute in Hu. injection Hu as <-. vm_compute. reflexivity.
  - left. split; [reflexivity|]. split; [reflexivity|].
    exists "tok-B". split; reflexivity.
  - vm_compute. intros H; discriminate H.
Defined.

Lemma logout_invalidation_witness :
  let after :=
    put_users_log_out Demo.hmac Demo.config (Demo.at_time 1589009560000)
      (Demo.session_request (Some Demo.T2) None) Demo.w2 in
  fst after = Resolved NoData /\
  (exists u,
     find (Repo.has_extId "1589009542") (AppUserTable (snd after)) = Some u /\
     id u = 1 /\ lastLogIn u = None /\ marker u = -1) /\
  forall now' : JS.Date,
    exists e,
      fst (validateUserSession Demo.hmac Demo.config now'
             (Some (token (Demo.session_of Demo.login1))) (snd after))
      = Rejected e /\
      Unauthorized e = true.
Proof.
  apply (logout_invalidation Demo.hmac Demo.ms Demo.config
           (Demo.at_time 1589009560000) (Demo.session_request (Some Demo.T2) None)
           Demo.w2 (Session.mk 1 "1589009542")
           1589009541600 1 1589009542 Demo.w0 (Demo.session_of Demo.login1)).
  - apply demo_hmac_collision_free.
  - vm_compute. reflexivity.
  - lia.
  - vm_compute. reflexivity.
Defined.

Lemma fresh_token_round_trip_witness :
  exists s w' u',
    newUserSession Demo.hmac Demo.ms Demo.config 1589009600200
      (id Demo.turing) (extId Demo.turing) 1589009600 Demo.w1 = (Resolved s, w') /\
    find (Repo.has_extId (extId Demo.turing)) (AppUserTable w') = Some u' /\
    lastLogIn u' = Some (1589009600 * 1000) /\
    marker u' = 1589009600 /\
    fst (validateUserSession Demo.hmac Demo.config 1589009700000 (Some (token s)) w')
    = Resolved (Session.mk (id Demo.turing) (extId Demo.turing)).
Proof.
  apply (fresh_token_round_trip Demo.hmac Demo.ms Demo.config Demo.turing Demo.w1
           1589009600200 1589009700000 1589009600).
  - vm_compute. reflexivity.
  - unfold valid_Date. lia.
  - vm_compute. reflexivity.
Defined.

(** The first token, whose fingerprint is the current one of its user,
    presented a day after it was minted. *)
Lemma expiry_precedence_witness :
  Demo.validate 1589009600000 (Some Demo.T1) Demo.w1
  = Resolved (Session.mk 1 "1589009542") /\
  exists e,
    validateUserSession Demo.hmac Demo.config 1589096000000
      (Some (Jwt.Signed (Demo.payload_of Demo.T1) "jwt-secret")) Demo.w1
    = (Rejected e, Demo.w1) /\
    Unauthorized e = true /\
    ("jwt-secret" = jwtSecret Demo.config -> e = SessionExpired).
Proof.
  split; [vm_compute; reflexivity|].
  apply (expiry_precedence Demo.hmac Demo.config 1589096000000
           (Demo.payload_of Demo.T1) "jwt-secret" Demo.w1).
  vm_compute. reflexivity.
Defined.

Lemma logout_best_effort_witness :
  let env := Demo.at_time 1589009560000 in
  let req := Demo.session_request (Some (Jwt.Malformed "garbage")) None in
  let after := put_users_log_out Demo.hmac Demo.config env req Demo.w2 in
  fst after = Resolved NoData /\
  AppUserTable (snd after) = AppUserTable Demo.w2 /\
  autoIncrement (snd after) = autoIncrement Demo.w2 /\
  calls (snd after) =
    (calls (snd (validateUserSession Demo.hmac Demo.config (clock env)
                   (header_userAccessToken req) Demo.w2))
     ++ [Call_logger_error SessionInvalid])%list.
Proof.
  apply (logout_best_effort Demo.hmac Demo.config (Demo.at_time 1589009560000)
           (Demo.session_request (Some (Jwt.Malformed "garbage")) None)
           Demo.w2 SessionInvalid).
  vm_compute. reflexivity.
Defined.

Lemma client_secret_gate_witness :
  let req := mkRequest (Some "guess") None (mkBody (Some "tok-A") None) None in
  let env := Demo.at_time 1589009541600 in
  post_users_log_in Demo.hmac Demo.ms Demo.humanID Demo.config env req Demo.w0
  = (Rejected (APIError RESPONSE_ERROR_UNAUTHORIZED None), Demo.w0) /\
  Unauthorized (APIError RESPONSE_ERROR_UNAUTHORIZED None) = true /\
  forall exchange,
    In (Call_verifyExchangeToken exchange)
       (calls (snd (post_users_log_in Demo.hmac Demo.ms Demo.humanID Demo.config
                      env req Demo.w0))) ->
    In (Call_verifyExchangeToken exchange) (calls Demo.w0).
Proof.
  apply (client_secret_gate Demo.hmac Demo.ms Demo.humanID Demo.config
           (Demo.at_time 1589009541600)
           (mkRequest (Some "guess") None (mkBody (Some "tok-A") None) None) Demo.w0).
  vm_compute. intros H; discriminate H.
Defined.

Lemma idempotent_find_or_create_witness :
  let first := Demo.login1 in
  let later := serve_all Demo.hmac Demo.ms Demo.humanID Demo.config Demo.between (snd first) in
  let second :=
    post_users_log_in Demo.hmac Demo.ms Demo.humanID Demo.config
      (Demo.at_time 1589009551600) (Demo.login_request "tok-B") later in
  exists u1 u2 s1 s2 p1 p2 v1 v2,
    fst first = Resolved (SessionResponse s1) /\
    fst second = Resolved (SessionResponse s2) /\
    find (Repo.has_userHash "h1") (AppUserTable (snd first)) = Some u1 /\
    find (Repo.has_userHash "h1") (AppUserTable (snd second)) = Some u2 /\
    id u2 = id u1 /\ extId u2 = extId u1 /\
    token s1 = Jwt.Signed p1 (jwtSecret Demo.config) /\
    token s2 = Jwt.Signed p2 (jwtSecret Demo.config) /\
    Jwt.userId (Jwt.data p1) = extId u1 /\
    Jwt.userId (Jwt.data p2) = extId u1 /\
    last (calls (snd first)) Call_logger_debug = Call_update v1 (id u1) /\
    last (calls (snd second)) Call_logger_debug = Call_update v2 (id u1) /\
    List.length (AppUserTable (snd second)) = List.length (AppUserTable later) /\
    rows_of "h1" (AppUserTable (snd second)) = rows_of "h1" (AppUserTable (snd first)) /\
    (find (Repo.has_userHash "h1") (AppUserTable Demo.w0) = None ->
     rows_of "h1" (AppUserTable (snd second)) = 1%nat).
Proof.
  apply (idempotent_find_or_create Demo.hmac Demo.ms Demo.humanID Demo.config
           (Demo.at_time 1589009541600) (Demo.at_time 1589009551600)
           (Demo.login_request "tok-A") (Demo.login_request "tok-B")
           Demo.between Demo.w0 "tok-A" "tok-B" "h1"); reflexivity.
Defined.

Lemma forged_token_noninterference_witness :
  validateUserSession Demo.hmac Demo.config 1589009553000
    (Some (Jwt.Signed (Demo.payload_of Demo.T2) "guessed-key")) Demo.w0
  = (Rejected SessionInvalid, Demo.w0) /\
  fst (validateUserSession Demo.hmac Demo.config 1589009553000
         (Some (Jwt.Signed (Demo.payload_of Demo.T2) "guessed-key")) Demo.w0)
  = fst (validateUserSession Demo.hmac Demo.config 1589009553000
           (Some (Jwt.Signed (Demo.payload_of Demo.T2) "guessed-key")) Demo.w2).
Proof.
  apply (forged_token_noninterference Demo.hmac Demo.config 1589009553000
           (Some (Jwt.Signed (Demo.payload_of Demo.T2) "guessed-key"))).
  vm_compute. reflexivity.
Defined.

(** A refresh one second after the log-in retires the first token. *)
Example rotation_by_refresh :
  let refresh := Demo.run PUT_users_refresh_session 1589009542600
                   (Demo.session_request (Some Demo.T1) None) Demo.w1 in
  Demo.validate 1589009544000 (Some Demo.T1) (snd refresh)
  = Rejected (APIError RESPONSE_ERROR_UNAUTHORIZED None) /\
  Demo.validate 1589009544000 (Some (Demo.token_of refresh)) (snd refresh)
  = Resolved (Session.mk 1 "1589009542").
Proof. vm_compute. split; reflexivity. Qed.

(** The scenario of the specification: log in with [tok-A], read the
    profile with the token, log out, and present the token again. *)
Example scenario :
  let profile := Demo.run GET_users_profile 1589009543000
                   (Demo.session_request (Some Demo.T1) None) Demo.w1 in
  let logout := Demo.run PUT_users_log_out 1589009544000
                  (Demo.session_request (Some Demo.T1) None) (snd profile) in
  fst profile = Resolved (ProfileResponse "1589009542" (Some "Jolly Turing") 1589009542) /\
  fst logout = Resolved NoData /\
  Demo.validate 1589009545000 (Some Demo.T1) (snd logout)
  = Rejected (APIError RESPONSE_ERROR_UNAUTHORIZED None).
Proof. vm_compute. repeat split. Qed.

(* ================================================================= *)
(** * Further properties of the controller *)

(** ** Clock readings and generated ids *)

(** X1.  [getUnixTime] is the second nearest to a clock reading, a reading
    on the half second going up; it never decreases with the clock, and a
    second written back as milliseconds reads as the same second. *)
Theorem getUnixTime_nearest (t : JS.Date) :
  1000 * getUnixTime t - 500 <= t < 1000 * getUnixTime t + 500 /\
  (forall t' : JS.Date, t <= t' -> getUnixTime t <= getUnixTime t') /\
  getUnixTime (getUnixTime t * 1000) = getUnixTime t.
Proof.
  unfold getUnixTime, JS.round_div1000. split; [|split].
  - pose proof (Z.div_mod (t + 500) 1000) as Hd.
    pose proof (Z.mod_pos_bound (t + 500) 1000) as Hm. lia.
  - intros t' Hle. apply Z.div_le_mono; lia.
  - symmetry. apply Z.div_unique with (r := 500); lia.
Qed.

(** X2.  Two generated external ids are equal exactly when the two clock
    readings round to the same second. *)
Theorem generateExtId_same_second (now1 now2 : JS.Date) :
  generateExtId now1 = generateExtId now2 <-> getUnixTime now1 = getUnixTime now2.
Proof.
  unfold generateExtId. split.
  - apply to_string_inj.
  - intros ->. reflexivity.
Qed.

(** ** What validation depends on *)

Lemma find_extId_view e t :
  option_map session_view (find (Repo.has_extId e) t)
  = find (fun v => String.eqb (snd (fst v)) e) (map session_view t).
Proof.
  induction t as [|x t IH]; simpl; [reflexivity|].
  unfold Repo.has_extId at 1.
  destruct (String.eqb (extId x) e); [reflexivity | exact IH].
Qed.

(** Two worlds whose rows look the same to validation give the same
    outcome. *)
Lemma validateUserSession_view hmac config now t w1 w2 :
  map session_view (AppUserTable w1) = map session_view (AppUserTable w2) ->
  fst (validateUserSession hmac config now t w1)
  = fst (validateUserSession hmac config now t w2).
Proof.
  intros Hview.
  unfold validateUserSession, verifyJWT, bind.
  destruct (Jwt.verify now t (jwtSecret config)) as [[|]|p]; simpl; try reflexivity.
  pose proof (find_extId_view (Jwt.userId (Jwt.data p)) (AppUserTable w1)) as H1.
  pose proof (find_extId_view (Jwt.userId (Jwt.data p)) (AppUserTable w2)) as H2.
  rewrite Hview, <- H2 in H1.
  destruct (find _ (AppUserTable w1)) as [u1|], (find _ (AppUserTable w2)) as [u2|];
    simpl in H1; try discriminate; [|reflexivity].
  destruct u1, u2. unfold session_view in H1. simpl in *.
  injection H1 as -> -> ->. destruct (negb _); reflexivity.
Qed.

Lemma session_view_update_fullName now name pk t :
  map session_view (Repo.update_rows now (mkUpdateValues name None None) pk t)
  = map session_view t.
Proof.
  unfold Repo.update_rows. rewrite map_map. apply map_ext.
  intros u. destruct (Repo.has_id pk u); [|reflexivity].
  unfold Repo.apply_values. destruct name; reflexivity.
Qed.

(** X3.  [validateUserSession] resolves exactly for a token signed with the
    configured key, not yet expired at the verifier's clock, whose user id
    is the external id of a row and whose session id is the fingerprint of
    that row's current last log-in; it resolves to the key and external id
    of the first such row. *)
Theorem validateUserSession_resolves_iff
  (hmac : string -> string -> string) (config : ClientConfig)
  (now : JS.Date) (t : option Jwt.Token) (w : World) (s : Session.Payload) :
  fst (validateUserSession hmac config now t w) = Resolved s <->
  exists p u,
    t = Some (Jwt.Signed p (jwtSecret config)) /\
    Qlt (inject_Z (JS.floor_div1000 now)) (Jwt.exp p) /\
    find (Repo.has_extId (Jwt.userId (Jwt.data p))) (AppUserTable w) = Some u /\
    createSessionId hmac config (extId u) (marker u) = Jwt.sessionId (Jwt.data p) /\
    s = Session.mk (id u) (extId u).
Proof.
  split.
  - intros H.
    destruct (validateUserSession_resolved_inv hmac config now t w s H)
      as (p & u & -> & Hfind & Hfp & ->).
    exists p, u. repeat split; auto.
    apply Qnot_le_lt. intros Hle. apply Qle_bool_iff in Hle.
    unfold validateUserSession, verifyJWT, bind, Jwt.verify in H.
    rewrite String.eqb_refl, Hle in H. simpl in H. discriminate.
  - intros (p & u & -> & Hexp & Hfind & Hfp & ->).
    now apply validateUserSession_accepts.
Qed.

(** X4.  Reading or updating the profile changes the outcome of validation
    for no token at all: after either route, on any request, every token
    validates as it did before. *)
Theorem profile_routes_keep_sessions
  (hmac : string -> string -> string) (config : ClientConfig)
  (env : Env) (req : Request) (w : World) (now : JS.Date) (t : option Jwt.Token) :
  fst (validateUserSession hmac config now t
         (snd (put_users_profile hmac config env req w)))
  = fst (validateUserSession hmac config now t w) /\
  fst (validateUserSession hmac config now t
         (snd (get_users_profile hmac config env req w)))
  = fst (validateUserSession hmac config now t w).
Proof.
  pose proof (handleValidateUserSession_table hmac config env req w) as Htable.
  split; apply validateUserSession_view.
  - unfold put_users_profile, bind.
    destruct (handleValidateUserSession _ _ _ _ _) as [[req'|e] w'];
      cbn [snd] in *; [|now rewrite Htable].
    unfold handleUpdateProfile.
    destruct (userAccess req') as [user|]; simpl; [|now rewrite Htable].
    rewrite session_view_update_fullName. now rewrite Htable.
  - unfold get_users_profile, bind.
    destruct (handleValidateUserSession _ _ _ _ _) as [[req'|e] w'];
      cbn [snd] in *; [|now rewrite Htable].
    unfold handleGetProfile.
    destruct (userAccess req') as [user|]; simpl; [|now rewrite Htable].
    unfold Repo.findByPk, bind. simpl.
    destruct (find _ _); simpl; now rewrite Htable.
Qed.

(** ** Routes behind the session check *)

Section Gated.

Variable hmac : string -> string -> string.
Variable ms : string -> Z.
Variable humanID : string -> option string.
Variable config : ClientConfig.

(** The row a resolved session names by its key is in the table. *)
Lemma resolved_session_has_row now t w session :
  fst (validateUserSession hmac config now t w) = Resolved session ->
  exists u, find (Repo.has_id (Session.id session)) (AppUserTable w) = Some u.
Proof.
  intros H. apply validateUserSession_resolved_inv in H.
  destruct H as (p & u & _ & Hfind & _ & ->). cbn [Session.id].
  destruct (find (Repo.has_id (id u)) (AppUserTable w)) as [x|] eqn:E;
    [exists x; reflexivity|].
  exfalso. apply find_has_extId in Hfind. destruct Hfind as [Hin _].
  pose proof (find_none _ _ E u Hin) as Hno. rewrite has_id_refl in Hno. discriminate.
Qed.

Lemma find_id_update_rows now v pk pk' t :
  find (Repo.has_id pk') (Repo.update_rows now v pk t) =
  option_map (fun u => if Repo.has_id pk u then Repo.apply_values now v u else u)
    (find (Repo.has_id pk') t).
Proof.
  apply find_map_stable. intros u. destruct (Repo.has_id pk u); [unfold Repo.apply_values;
    destruct (set_fullName v), (set_lastLogIn v)|]; reflexivity.
Qed.

(** A rejected validation stops the three routes, and hands its error on. *)
Lemma gated_rejected r env req w e :
  behind_session r = true ->
  fst (validateUserSession hmac config (clock env) (header_userAccessToken req) w)
  = Rejected e ->
  serve hmac ms humanID config r env req w =
  (Rejected e,
   snd (validateUserSession hmac config (clock env) (header_userAccessToken req) w)).
Proof.
  intros Hr Hval.
  destruct r; try discriminate Hr; cbn [serve];
    unfold get_users_profile, put_users_refresh_session, put_users_profile,
      handleValidateUserSession, bind;
    destruct (validateUserSession _ _ _ _ _) as [[s|e'] w'];
    cbn [fst snd] in *; congruence.
Qed.

(** After a resolved validation the three handlers resolve too. *)
Lemma gated_resolved r env req w session :
  behind_session r = true ->
  fst (validateUserSession hmac config (clock env) (header_userAccessToken req) w)
  = Resolved session ->
  exists d, fst (serve hmac ms humanID config r env req w) = Resolved d.
Proof.
  intros Hr Hval.
  destruct (resolved_session_has_row _ _ _ _ Hval) as (u & Hu).
  pose proof (validateUserSession_table hmac config (clock env)
                (header_userAccessToken req) w) as Htable.
  destruct r; try discriminate Hr; cbn [serve];
    unfold get_users_profile, put_users_refresh_session, put_users_profile,
      handleValidateUserSession, bind;
    destruct (validateUserSession _ _ _ _ _) as [[s|e'] w'];
    cbn [fst snd] in *; try discriminate; injection Hval as ->; cbn [ret].
  - unfold handleGetProfile. cbn [userAccess set_userAccess].
    unfold Repo.findByPk, bind. cbn [fst snd AppUserTable record].
    rewrite Htable, Hu. eexists. reflexivity.
  - unfold handleRefreshSession. cbn [userAccess set_userAccess].
    unfold bind. rewrite newUserSession_eq. eexists. reflexivity.
  - unfold handleUpdateProfile. cbn [userAccess set_userAccess].
    eexists. reflexivity.
Qed.

End Gated.

(** X5.  A route behind the session check is rejected exactly when the
    validation of the presented token is, with the error of the validation
    and the world the validation left: the handler behind the check did
    not run, and on its own it never throws. *)
Theorem gated_route_rejected_iff
  (hmac : string -> string -> string) (ms : string -> Z)
  (humanID : string -> option string) (config : ClientConfig)
  (r : Route) (env : Env) (req : Request) (w : World) (e : Exn) :
  behind_session r = true ->
  let checked :=
    validateUserSession hmac config (clock env) (header_userAccessToken req) w in
  let served := serve hmac ms humanID config r env req w in
  (fst served = Rejected e <-> fst checked = Rejected e) /\
  (fst checked = Rejected e ->
   snd served = snd checked /\
   AppUserTable (snd served) = AppUserTable w /\
   Unauthorized e = true).
Proof.
  intros Hr. cbv zeta. split; [split|].
  - intros Hserved.
    destruct (fst (validateUserSession hmac config (clock env)
                     (header_userAccessToken req) w)) as [s|e'] eqn:Hval.
    + destruct (gated_resolved hmac ms humanID config r env req w s Hr Hval) as (d & Hd).
      congruence.
    + rewrite (gated_rejected hmac ms humanID config r env req w e' Hr Hval) in Hserved.
      cbn [fst] in Hserved. injection Hserved as ->. reflexivity.
  - intros Hval. now rewrite (gated_rejected hmac ms humanID config r env req w e Hr Hval).
  - intros Hval.
    rewrite (gated_rejected hmac ms humanID config r env req w e Hr Hval). cbn [snd].
    split; [reflexivity|]. split.
    + apply validateUserSession_table.
    + eapply validateUserSession_rejects_unauthorized. exact Hval.
Qed.

(** ** The profile *)

Section Profile.

Variable hmac : string -> string -> string.
Variable config : ClientConfig.

Lemma get_users_profile_accepted env req w session u :
  fst (validateUserSession hmac config (clock env) (header_userAccessToken req) w)
  = Resolved session ->
  find (Repo.has_id (Session.id session)) (AppUserTable w) = Some u ->
  fst (get_users_profile hmac config env req w)
  = Resolved (ProfileResponse (extId u) (fullName u) (getUnixTime (updatedAt u))).
Proof.
  intros Hval Hu.
  pose proof (validateUserSession_table hmac config (clock env)
                (header_userAccessToken req) w) as Htable.
  unfold get_users_profile, handleValidateUserSession, bind.
  destruct (validateUserSession _ _ _ _ _) as [[s|e'] w'];
    cbn [fst snd] in *; [|discriminate]. injection Hval as ->. cbn [ret].
  unfold handleGetProfile. cbn [userAccess set_userAccess].
  unfold Repo.findByPk, bind. cbn [fst snd AppUserTable record].
  rewrite Htable, Hu. reflexivity.
Qed.

Lemma put_users_profile_accepted env req w session :
  fst (validateUserSession hmac config (clock env) (header_userAccessToken req) w)
  = Resolved session ->
  fst (put_users_profile hmac config env req w) = Resolved NoData /\
  AppUserTable (snd (put_users_profile hmac config env req w)) =
  Repo.update_rows (clock env)
    (mkUpdateValues (body_fullName (body req)) None None)
    (Session.id session) (AppUserTable w).
Proof.
  intros Hval.
  pose proof (validateUserSession_table hmac config (clock env)
                (header_userAccessToken req) w) as Htable.
  unfold put_users_profile, handleValidateUserSession, bind.
  destruct (validateUserSession _ _ _ _ _) as [[s|e'] w'];
    cbn [fst snd] in *; [|discriminate]. injection Hval as ->. cbn [ret].
  unfold handleUpdateProfile. cbn [userAccess set_userAccess body]. simpl.
  now rewrite Htable.
Qed.

End Profile.

(** X7.  Once the token is accepted, reading the profile always resolves:
    the row with the key of the session exists, and the response carries
    its external id (not the key), its display name and [updatedAt] in
    seconds.  The table is left as it was. *)
Theorem get_profile_after_validation
  (hmac : string -> string -> string) (config : ClientConfig)
  (env : Env) (req : Request) (w : World) (session : Session.Payload) :
  fst (validateUserSession hmac config (clock env) (header_userAccessToken req) w)
  = Resolved session ->
  exists u,
    find (Repo.has_id (Session.id session)) (AppUserTable w) = Some u /\
    fst (get_users_profile hmac config env req w)
    = Resolved (ProfileResponse (extId u) (fullName u) (getUnixTime (updatedAt u))) /\
    AppUserTable (snd (get_users_profile hmac config env req w)) = AppUserTable w.
Proof.
  intros Hval.
  destruct (resolved_session_has_row hmac config _ _ _ _ Hval) as (u & Hu).
  exists u. split; [exact Hu|]. split.
  - now apply get_users_profile_accepted with (session := session).
  - pose proof (handleValidateUserSession_table hmac config env req w) as Htable.
    unfold get_users_profile, bind.
    destruct (handleValidateUserSession _ _ _ _ _) as [[req'|e] w'];
      cbn [snd] in *; [|exact Htable].
    unfold handleGetProfile.
    destruct (userAccess req') as [user|]; simpl; [|exact Htable].
    unfold Repo.findByPk, bind. simpl.
    destruct (find (Repo.has_id (Session.id user)) (AppUserTable w'));
      simpl; exact Htable.
Qed.

(** X8.  A display name written through the profile update is the one the
    profile read returns afterwards, with the same token: the update leaves
    the token valid and rewrites the name of the row the read looks up. *)
Theorem update_then_get_profile
  (hmac : string -> string -> string) (config : ClientConfig)
  (env1 env2 : Env) (req1 req2 : Request) (w : World)
  (session : Session.Payload) (name : string) :
  fst (validateUserSession hmac config (clock env1) (header_userAccessToken req1) w)
  = Resolved session ->
  fst (validateUserSession hmac config (clock env2) (header_userAccessToken req2) w)
  = Resolved session ->
  body_fullName (body req1) = Some name ->
  let updated := put_users_profile hmac config env1 req1 w in
  fst updated = Resolved NoData /\
  exists ext seconds,
    fst (get_users_profile hmac config env2 req2 (snd updated))
    = Resolved (ProfileResponse ext (Some name) seconds).
Proof.
  intros Hval1 Hval2 Hname. cbv zeta.
  destruct (put_users_profile_accepted hmac config env1 req1 w session Hval1)
    as [Hres Htable].
  split; [exact Hres|].
  destruct (resolved_session_has_row hmac config _ _ _ _ Hval1) as (u & Hu).
  assert (Hval2' :
    fst (validateUserSession hmac config (clock env2) (header_userAccessToken req2)
           (snd (put_users_profile hmac config env1 req1 w)))
    = Resolved session).
  { rewrite <- Hval2. apply validateUserSession_view.
    rewrite Htable. apply session_view_update_fullName. }
  set (u' := Repo.apply_values (clock env1) (mkUpdateValues (Some name) None None) u).
  exists (extId u'), (getUnixTime (updatedAt u')).
  apply (get_users_profile_accepted hmac config env2 req2 _ session u' Hval2').
  rewrite Htable, Hname, find_id_update_rows, Hu. cbn [option_map].
  assert (Hid : Repo.has_id (Session.id session) u = true).
  { apply find_some in Hu. tauto. }
  rewrite Hid. reflexivity.
Qed.

(** ** Logging in *)

(** X9.  When humanID does not confirm the exchange token, the log-in is
    rejected with [ERR_3] after that one call and a debug line: the table
    is neither read nor written, and no session is minted. *)
Theorem login_identity_rejected
  (hmac : string -> string -> string) (ms : string -> Z)
  (humanID : string -> option string) (config : ClientConfig)
  (env : Env) (req : Request) (w : World) (exchange : string) :
  header_clientSecret req = appSecret config ->
  exchangeToken (body req) = Some exchange ->
  humanID exchange = None ->
  post_users_log_in hmac ms humanID config env req w
  = (Rejected (APIError ERR_3 None),
     mkWorld (AppUserTable w) (autoIncrement w)
       (calls w ++ [Call_verifyExchangeToken exchange; Call_logger_debug])) /\
  IdentityVerificationFailed (APIError ERR_3 None) = true.
Proof.
  intros Hsecret Hx Hh.
  assert (Hgate : strict_neq (header_clientSecret req) (appSecret config) = false).
  { destruct (strict_neq _ _) eqn:E; [|reflexivity].
    apply strict_neq_spec in E. contradiction. }
  unfold post_users_log_in, handleValidateClientApp, bind. rewrite Hgate. cbn [ret].
  unfold handleLogIn, bind, validate_required, verifyExchangeToken, bind, call.
  rewrite Hx. cbn [ret]. rewrite Hh. unfold record. simpl.
  rewrite <- app_assoc. auto.
Qed.

(** ** The table over any sequence of requests *)

Lemma grows_prefix t t' :
  grows t t' -> exists extra, map identity t' = (map identity t ++ extra)%list.
Proof.
  intros [Hmap | u Hmap _].
  - exists []. now rewrite app_nil_r.
  - exists [identity u]. exact Hmap.
Qed.

Lemma userHash_of_identity t : map userHash t = map snd (map identity t).
Proof. rewrite map_map. reflexivity. Qed.

Lemma grows_userHash_NoDup t t' :
  grows t t' -> NoDup (map userHash t) -> NoDup (map userHash t').
Proof.
  intros [Hmap | u Hmap Hnone] Hnd.
  - now rewrite userHash_of_identity, Hmap, <- userHash_of_identity.
  - rewrite userHash_of_identity, Hmap, map_app, <- userHash_of_identity.
    apply NoDup_app; [exact Hnd | repeat constructor; intros [] |].
    intros a Hin [<- | []]. simpl in Hin.
    apply in_map_iff in Hin. destruct Hin as (x & Hx & Hin).
    pose proof (find_none _ _ Hnone x Hin) as Hno.
    unfold Repo.has_userHash in Hno. rewrite Hx, String.eqb_refl in Hno.
    discriminate.
Qed.

(** X10.  No sequence of requests deletes a row or rewrites the key, the
    external id or the humanID hash of one: the identities of the rows
    before are a prefix of the identities after. *)
Theorem rows_never_lost
  (hmac : string -> string -> string) (ms : string -> Z)
  (humanID : string -> option string) (config : ClientConfig)
  (l : list (Route * Env * Request)) (w : World) :
  exists extra,
    map identity (AppUserTable (serve_all hmac ms humanID config l w))
    = (map identity (AppUserTable w) ++ extra)%list.
Proof.
  revert w. induction l as [|[[r env] req] l IH]; intros w; cbn [serve_all].
  - exists []. now rewrite app_nil_r.
  - destruct (IH (snd (serve hmac ms humanID config r env req w))) as (extra2 & H2).
    destruct (grows_prefix _ _ (serve_grows hmac ms humanID config r env req w))
      as (extra1 & H1).
    exists (extra1 ++ extra2)%list. rewrite H2, H1, app_assoc. reflexivity.
Qed.

(** X11.  When no two rows share a humanID hash, no sequence of requests
    makes two rows share one: a row is only added for a hash that has
    none. *)
Theorem userHash_stays_unique
  (hmac : string -> string -> string) (ms : string -> Z)
  (humanID : string -> option string) (config : ClientConfig)
  (l : list (Route * Env * Request)) (w : World) :
  NoDup (map userHash (AppUserTable w)) ->
  NoDup (map userHash (AppUserTable (serve_all hmac ms humanID config l w))).
Proof.
  revert w. induction l as [|[[r env] req] l IH]; intros w Hnd; cbn [serve_all].
  - exact Hnd.
  - apply IH. eapply grows_userHash_NoDup; [apply serve_grows | exact Hnd].
Qed.

(** ** A first log-in *)

Section FirstLogIn.

Variable hmac : string -> string -> string.
Variable ms : string -> Z.
Variable humanID : string -> option string.
Variable config : ClientConfig.

(** The log-in of a person without a row: the row is appended with the
    next key, then the session update runs over the table. *)
Lemma login_new env req w exchange h :
  header_clientSecret req = appSecret config ->
  exchangeToken (body req) = Some exchange ->
  humanID exchange = Some h ->
  find (Repo.has_userHash h) (AppUserTable w) = None ->
  let after := post_users_log_in hmac ms humanID config env req w in
  let seconds := getUnixTime (clock env) in
  let expiry := Qplus (inject_Z seconds) (Qmake (ms (jwtLifetime config)) 1000) in
  fst after =
    Resolved (SessionResponse (mkUserSession
      (Jwt.Signed
         (Jwt.mkPayload (JS.floor_div1000 (clock env)) expiry
            (Jwt.mkSessionData (generateExtId (clock env))
               (createSessionId hmac config (generateExtId (clock env)) seconds)))
         (jwtSecret config))
      expiry)) /\
  AppUserTable (snd after) =
    Repo.update_rows (clock env) (session_values env) (autoIncrement w)
      (AppUserTable w ++ [created_row w env h]) /\
  autoIncrement (snd after) = autoIncrement w + 1.
Proof.
  intros Hsecret Hx Hh Hnone. cbv zeta.
  assert (Hgate : strict_neq (header_clientSecret req) (appSecret config) = false).
  { destruct (strict_neq _ _) eqn:E; [|reflexivity].
    apply strict_neq_spec in E. contradiction. }
  unfold post_users_log_in, handleValidateClientApp, bind.
  rewrite Hgate. cbn [ret].
  rewrite (handleLogIn_eq hmac ms humanID config env req w exchange h Hx Hh). cbv zeta.
  unfold Repo.findOrCreate. cbn [AppUserTable record]. rewrite Hnone.
  cbn [fst snd]. rewrite newUserSession_eq. cbv zeta. cbn [fst snd].
  repeat split.
Qed.

(** The new row as the session update leaves it, found by its external id
    when no older row has that id. *)
Lemma created_row_found env w h t :
  find (Repo.has_extId (generateExtId (clock env))) t = None ->
  find (Repo.has_extId (generateExtId (clock env)))
    (Repo.update_rows (clock env) (session_values env) (autoIncrement w)
       (t ++ [created_row w env h]))
  = Some (Repo.apply_values (clock env) (session_values env) (created_row w env h)).
Proof.
  intros Hnone.
  rewrite find_extId_update_rows, (find_app_none _ _ _ Hnone). cbn [find].
  unfold Repo.has_extId at 1. cbn [extId created_row].
  rewrite String.eqb_refl. cbn [option_map].
  unfold Repo.has_id. cbn [id created_row]. now rewrite Z.eqb_refl.
Qed.

End FirstLogIn.

(** X12.  The first log-in of a person, then a profile read with the token
    it returned (before the token expires): the read resolves to the
    generated external id, the generated display name and the second of
    the log-in.  The table held no row with that hash, that external id or
    the next key. *)
Theorem first_login_then_profile
  (hmac : string -> string -> string) (ms : string -> Z)
  (humanID : string -> option string) (config : ClientConfig)
  (env1 env2 : Env) (req1 req2 : Request) (w : World) (exchange h : string) :
  header_clientSecret req1 = appSecret config ->
  exchangeToken (body req1) = Some exchange ->
  humanID exchange = Some h ->
  find (Repo.has_userHash h) (AppUserTable w) = None ->
  find (Repo.has_extId (generateExtId (clock env1))) (AppUserTable w) = None ->
  find (Repo.has_id (autoIncrement w)) (AppUserTable w) = None ->
  let first := post_users_log_in hmac ms humanID config env1 req1 w in
  header_userAccessToken req2 = response_token
    match fst first with Resolved d => d | Rejected _ => NoData end ->
  Qlt (inject_Z (JS.floor_div1000 (clock env2)))
      (Qplus (inject_Z (getUnixTime (clock env1)))
             (Qmake (ms (jwtLifetime config)) 1000)) ->
  fst (get_users_profile hmac config env2 req2 (snd first))
  = Resolved (ProfileResponse (generateExtId (clock env1)) (Some (randomName env1))
                (getUnixTime (clock env1))).
Proof.
  intros Hsecret Hx Hh Hhash Hext Hid first Htoken Hlive.
  destruct (login_new hmac ms humanID config env1 req1 w exchange h
              Hsecret Hx Hh Hhash) as (Hfst & Htable & _).
  fold first in Hfst, Htable.
  rewrite Hfst in Htoken. cbn [response_token token] in Htoken.
  set (u := Repo.apply_values (clock env1) (session_values env1)
              (created_row w env1 h)).
  assert (Hval :
    fst (validateUserSession hmac config (clock env2)
           (header_userAccessToken req2) (snd first))
    = Resolved (Session.mk (id u) (extId u))).
  { rewrite Htoken. apply validateUserSession_accepts.
    - exact Hlive.
    - cbn [Jwt.userId Jwt.data]. rewrite Htable. now apply created_row_found.
    - cbn [Jwt.sessionId Jwt.data]. unfold u, marker. simpl.
      rewrite getUnixTime_millis. reflexivity. }
  assert (Hrow : find (Repo.has_id (Session.id (Session.mk (id u) (extId u))))
                   (AppUserTable (snd first)) = Some u).
  { cbn [Session.id]. rewrite Htable, find_id_update_rows.
    cbn [id u Repo.apply_values created_row].
    rewrite (find_app_none _ _ _ Hid). cbn [find].
    assert (Hnew : Repo.has_id (autoIncrement w) (created_row w env1 h) = true)
      by apply has_id_refl.
    rewrite Hnew. cbn [option_map]. now rewrite Hnew. }
  rewrite (get_users_profile_accepted hmac config env2 req2 (snd first) _ u Hval Hrow).
  unfold u. simpl. reflexivity.
Qed.

(** X13.  External ids are the second of the first log-in, so two persons
    who first log in within one rounded second get the same external id.
    Validation looks a user up by external id and takes the first row: the
    token of the second person then resolves to the key of the first. *)
Theorem same_second_extId_collision
  (hmac : string -> string -> string) (ms : string -> Z)
  (humanID : string -> option string) (config : ClientConfig)
  (env1 env2 : Env) (req1 req2 : Request) (w : World)
  (exchange1 exchange2 h1 h2 : string) :
  header_clientSecret req1 = appSecret config ->
  header_clientSecret req2 = appSecret config ->
  exchangeToken (body req1) = Some exchange1 ->
  exchangeToken (body req2) = Some exchange2 ->
  humanID exchange1 = Some h1 ->
  humanID exchange2 = Some h2 ->
  h1 <> h2 ->
  find (Repo.has_userHash h1) (AppUserTable w) = None ->
  find (Repo.has_userHash h2) (AppUserTable w) = None ->
  find (Repo.has_extId (generateExtId (clock env1))) (AppUserTable w) = None ->
  getUnixTime (clock env1) = getUnixTime (clock env2) ->
  let first := post_users_log_in hmac ms humanID config env1 req1 w in
  let second := post_users_log_in hmac ms humanID config env2 req2 (snd first) in
  exists s2 u2,
    fst second = Resolved (SessionResponse s2) /\
    find (Repo.has_userHash h2) (AppUserTable (snd second)) = Some u2 /\
    id u2 = autoIncrement w + 1 /\
    extId u2 = generateExtId (clock env1) /\
    forall now : JS.Date,
      unexpired now s2 ->
      fst (validateUserSession hmac config now (Some (token s2)) (snd second))
      = Resolved (Session.mk (autoIncrement w) (generateExtId (clock env1))).
Proof.
  intros Hs1 Hs2 Hx1 Hx2 Hh1 Hh2 Hneq Hhash1 Hhash2 Hext Hsame first second.
  destruct (login_new hmac ms humanID config env1 req1 w exchange1 h1
              Hs1 Hx1 Hh1 Hhash1) as (_ & Htable1 & Hauto1).
  fold first in Htable1, Hauto1.
  assert (Hid : generateExtId (clock env2) = generateExtId (clock env1)).
  { unfold generateExtId. now rewrite Hsame. }
  assert (Hhash2' : find (Repo.has_userHash h2) (AppUserTable (snd first)) = None).
  { rewrite Htable1, find_userHash_update_rows, (find_app_none _ _ _ Hhash2).
    cbn [find]. unfold Repo.has_userHash at 1. cbn [userHash created_row].
    destruct (String.eqb_spec h1 h2) as [E|]; [contradiction | reflexivity]. }
  destruct (login_new hmac ms humanID config env2 req2 (snd first) exchange2 h2
              Hs2 Hx2 Hh2 Hhash2') as (Hfst2 & Htable2 & _).
  fold second in Hfst2, Htable2.
  set (uA := Repo.apply_values (clock env1) (session_values env1)
               (created_row w env1 h1)).
  set (uB := Repo.apply_values (clock env2) (session_values env2)
               (created_row (snd first) env2 h2)).
  assert (HfindA : find (Repo.has_extId (generateExtId (clock env1)))
                     (AppUserTable (snd second)) = Some uA).
  { rewrite Htable2, find_extId_update_rows.
    rewrite (find_app_some _ _ _ uA).
    - cbn [option_map]. unfold Repo.has_id.
      change (id uA) with (autoIncrement w). rewrite Hauto1.
      destruct (Z.eqb_spec (autoIncrement w) (autoIncrement w + 1)); [lia|reflexivity].
    - rewrite Htable1. now apply created_row_found. }
  eexists _, uB. split; [exact Hfst2|]. split; [|split; [|split]].
  - rewrite Htable2, find_userHash_update_rows, (find_app_none _ _ _ Hhash2').
    cbn [find]. unfold Repo.has_userHash at 1. cbn [userHash created_row].
    rewrite String.eqb_refl. cbn [option_map].
    unfold Repo.has_id. cbn [id created_row]. now rewrite Z.eqb_refl.
  - change (id uB) with (autoIncrement (snd first)). exact Hauto1.
  - change (extId uB) with (generateExtId (clock env2)). exact Hid.
  - intros now Hlive. cbn [token].
    change (Session.mk (autoIncrement w) (generateExtId (clock env1)))
      with (Session.mk (id uA) (extId uA)).
    apply validateUserSession_accepts.
    + exact Hlive.
    + cbn [Jwt.userId Jwt.data]. rewrite Hid. exact HfindA.
    + cbn [Jwt.sessionId Jwt.data]. rewrite Hid, <- Hsame.
      unfold uA, marker. simpl. rewrite getUnixTime_millis. reflexivity.
Qed.

(** ** Refreshing and logging out *)

Section Refresh.

Variable hmac : string -> string -> string.
Variable ms : string -> Z.
Variable config : ClientConfig.

(** The outcome of validation is settled by the key, the external id and
    the marker of the row the token names. *)
Lemma validateUserSession_same_row now p key w1 w2 :
  option_map (fun u => (id u, extId u, marker u))
    (find (Repo.has_extId (Jwt.userId (Jwt.data p))) (AppUserTable w1))
  = option_map (fun u => (id u, extId u, marker u))
      (find (Repo.has_extId (Jwt.userId (Jwt.data p))) (AppUserTable w2)) ->
  fst (validateUserSession hmac config now (Some (Jwt.Signed p key)) w1)
  = fst (validateUserSession hmac config now (Some (Jwt.Signed p key)) w2).
Proof.
  intros Hrow.
  unfold validateUserSession, verifyJWT, bind, Jwt.verify.
  destruct (String.eqb key (jwtSecret config)); simpl; [|reflexivity].
  destruct (Qle_bool _ _); simpl; [reflexivity|].
  destruct (find _ (AppUserTable w1)) as [u1|], (find _ (AppUserTable w2)) as [u2|];
    simpl in Hrow; try discriminate; [|reflexivity].
  injection Hrow as Hid Hext Hm. simpl.
  fold (marker u1). fold (marker u2). rewrite Hid, Hext, Hm.
  destruct (negb _); reflexivity.
Qed.

(** The row of an accepted token, looked up by the external id of the
    session. *)
Lemma resolved_session_row now t w session :
  fst (validateUserSession hmac config now t w) = Resolved session ->
  exists u,
    find (Repo.has_extId (Session.extId session)) (AppUserTable w) = Some u /\
    session = Session.mk (id u) (extId u).
Proof.
  intros H. apply validateUserSession_resolved_inv in H.
  destruct H as (p & u & _ & Hfind & _ & ->). cbn [Session.extId].
  exists u. split; [|reflexivity].
  destruct (find_has_extId _ _ _ Hfind) as [_ Hext]. now rewrite Hext.
Qed.

Lemma logout_rejected_table env req w e :
  fst (validateUserSession hmac config (clock env) (header_userAccessToken req) w)
  = Rejected e ->
  AppUserTable (snd (put_users_log_out hmac config env req w)) = AppUserTable w.
Proof.
  intros Hval.
  pose proof (validateUserSession_table hmac config (clock env)
                (header_userAccessToken req) w) as Htable.
  unfold put_users_log_out, handleLogOut, bind, attempt.
  destruct (validateUserSession _ _ _ _ _) as [[s|e'] w'];
    cbn [fst snd] in *; [discriminate|]. simpl. exact Htable.
Qed.

End Refresh.

(** X14.  A refresh in the rounded second of the user's last log-in writes
    the [lastLogIn] that is already there: every token of that user, the
    one presented included, validates after the refresh as it did before,
    so the refresh retires nothing. *)
Theorem same_second_refresh_retires_nothing
  (hmac : string -> string -> string) (ms : string -> Z) (config : ClientConfig)
  (env : Env) (req : Request) (w : World) (session : Session.Payload) :
  fst (validateUserSession hmac config (clock env) (header_userAccessToken req) w)
  = Resolved session ->
  option_map marker
    (find (Repo.has_extId (Session.extId session)) (AppUserTable w))
  = Some (getUnixTime (clock env)) ->
  forall (now : JS.Date) (p : Jwt.Payload) (key : string),
    Jwt.userId (Jwt.data p) = Session.extId session ->
    fst (validateUserSession hmac config now (Some (Jwt.Signed p key))
           (snd (put_users_refresh_session hmac ms config env req w)))
    = fst (validateUserSession hmac config now (Some (Jwt.Signed p key)) w).
Proof.
  intros Hval Hmark now p key Huser.
  destruct (resolved_session_row hmac config _ _ _ _ Hval) as (u & Hfind & ->).
  cbn [Session.extId Session.id] in *.
  rewrite Hfind in Hmark. cbn [option_map] in Hmark. injection Hmark as Hmark.
  destruct (refresh_accepted hmac ms config env req w _ Hval) as (w' & Htable & Heq).
  cbv zeta in Heq. cbn [Session.id Session.extId] in Heq.
  rewrite Heq. cbn [snd].
  apply validateUserSession_same_row.
  rewrite Huser, newUserSession_eq. cbv zeta. cbn [snd AppUserTable record with_table].
  rewrite find_extId_update_rows, Htable, Hfind. cbn [option_map].
  rewrite has_id_refl. f_equal. f_equal.
  unfold marker at 1. simpl. rewrite getUnixTime_millis. now rewrite Hmark.
Qed.

(** X15.  A refresh behind an accepted token resolves to a session whose
    token, until it expires, is accepted as the same user. *)
Theorem refresh_round_trip
  (hmac : string -> string -> string) (ms : string -> Z) (config : ClientConfig)
  (env : Env) (req : Request) (w : World) (session : Session.Payload) :
  fst (validateUserSession hmac config (clock env) (header_userAccessToken req) w)
  = Resolved session ->
  let refreshed := put_users_refresh_session hmac ms config env req w in
  exists s,
    fst refreshed = Resolved (SessionResponse s) /\
    expiredAt s = Qplus (inject_Z (getUnixTime (clock env)))
                    (Qmake (ms (jwtLifetime config)) 1000) /\
    forall now : JS.Date,
      unexpired now s ->
      fst (validateUserSession hmac config now (Some (token s)) (snd refreshed))
      = Resolved session.
Proof.
  intros Hval. cbv zeta.
  destruct (resolved_session_row hmac config _ _ _ _ Hval) as (u & Hfind & ->).
  cbn [Session.extId] in Hfind.
  destruct (refresh_accepted hmac ms config env req w _ Hval) as (w' & Htable & Heq).
  cbv zeta in Heq. cbn [Session.id Session.extId] in Heq.
  rewrite <- Htable in Hfind.
  pose proof (newUserSession_eq hmac ms config (clock env) (id u) (extId u)
                (getUnixTime (clock env)) w') as Hnew.
  cbv zeta in Hnew.
  eexists. split; [rewrite Heq, Hnew; reflexivity|].
  split; [reflexivity|].
  intros now Hlive. rewrite Heq. cbn [snd].
  apply (newUserSession_accepted hmac ms config (clock env) now u
           (getUnixTime (clock env)) w' Hfind).
  - exact Hlive.
  - rewrite Hnew. reflexivity.
Qed.

(** X16.  Logging out twice with the same token: the first log-out clears
    the session, so the second finds the token rejected and leaves the
    table as the first left it, and still resolves.  The user had a last
    log-in other than the sentinel second [-1]; the keyed transform is
    taken without collisions. *)
Theorem logout_twice
  (hmac : string -> string -> string) (config : ClientConfig)
  (env1 env2 : Env) (req : Request) (w : World) (session : Session.Payload) :
  collision_free hmac (sessionIdSecret config) ->
  fst (validateUserSession hmac config (clock env1) (header_userAccessToken req) w)
  = Resolved session ->
  option_map marker
    (find (Repo.has_extId (Session.extId session)) (AppUserTable w))
  <> Some (-1) ->
  let once := put_users_log_out hmac config env1 req w in
  let twice := put_users_log_out hmac config env2 req (snd once) in
  fst twice = Resolved NoData /\
  AppUserTable (snd twice) = AppUserTable (snd once).
Proof.
  intros Hfree Hval Hmark. cbv zeta.
  split; [apply handleLogOut_resolves|].
  destruct (logout_accepted hmac config env1 req w session Hval) as [_ Htable].
  pose proof Hval as Hinv. apply validateUserSession_resolved_inv in Hinv.
  destruct Hinv as (p & u & Htoken & Hfind & Hfp & ->).
  destruct (find_has_extId _ _ _ Hfind) as [_ Hext].
  cbn [Session.id Session.extId] in *.
  rewrite Hext, Hfind in Hmark. cbn [option_map] in Hmark.
  set (values := mkUpdateValues None (Some None) (Some (clock env1))) in *.
  destruct (validateUserSession_stale hmac config (clock env2)
              (header_userAccessToken req) p (jwtSecret config)
              (Repo.apply_values (clock env1) values u)
              (snd (put_users_log_out hmac config env1 req w)) Htoken)
    as (e & Hrej & _).
  - rewrite Htable, find_extId_update_rows, Hfind. cbn [option_map].
    now rewrite has_id_refl.
  - rewrite <- Hfp.
    change (marker (Repo.apply_values (clock env1) values u)) with (-1).
    change (extId (Repo.apply_values (clock env1) values u)) with (extId u).
    intros Heq. apply createSessionId_inj in Heq; [|exact Hfree]. congruence.
  - eapply logout_rejected_table. exact Hrej.
Qed.

(** X17.  A refresh or a log-out of one user leaves the tokens of the
    others alone: a token whose user id resolves to a row with another key
    (or to no row) validates after the request as it did before. *)
Theorem other_sessions_survive
  (hmac : string -> string -> string) (ms : string -> Z) (config : ClientConfig)
  (env : Env) (req : Request) (w : World) (session : Session.Payload)
  (now : JS.Date) (p : Jwt.Payload) (key : string) :
  fst (validateUserSession hmac config (clock env) (header_userAccessToken req) w)
  = Resolved session ->
  (forall u, find (Repo.has_extId (Jwt.userId (Jwt.data p))) (AppUserTable w) = Some u ->
             id u <> Session.id session) ->
  fst (validateUserSession hmac config now (Some (Jwt.Signed p key))
         (snd (put_users_refresh_session hmac ms config env req w)))
  = fst (validateUserSession hmac config now (Some (Jwt.Signed p key)) w) /\
  fst (validateUserSession hmac config now (Some (Jwt.Signed p key))
         (snd (put_users_log_out hmac config env req w)))
  = fst (validateUserSession hmac config now (Some (Jwt.Signed p key)) w).
Proof.
  intros Hval Hother.
  assert (Hkeep : forall stamp v,
    option_map (fun u => (id u, extId u, marker u))
      (find (Repo.has_extId (Jwt.userId (Jwt.data p)))
         (Repo.update_rows stamp v (Session.id session) (AppUserTable w)))
    = option_map (fun u => (id u, extId u, marker u))
        (find (Repo.has_extId (Jwt.userId (Jwt.data p))) (AppUserTable w))).
  { intros stamp v. rewrite find_extId_update_rows.
    destruct (find _ (AppUserTable w)) as [u|] eqn:Hfind; [|reflexivity].
    cbn [option_map]. unfold Repo.has_id.
    destruct (Z.eqb_spec (id u) (Session.id session)) as [E|]; [|reflexivity].
    exfalso. exact (Hother u eq_refl E). }
  split; apply validateUserSession_same_row.
  - destruct (refresh_accepted hmac ms config env req w _ Hval) as (w' & Htable & Heq).
    cbv zeta in Heq. rewrite Heq. cbn [snd].
    rewrite newUserSession_eq. cbv zeta. cbn [snd AppUserTable record with_table].
    rewrite Htable. apply Hkeep.
  - destruct (logout_accepted hmac config env req w session Hval) as [_ Htable].
    rewrite Htable. apply Hkeep.
Qed.

(** X18.  The life of a minted token: whatever the table, the token
    [newUserSession] returns for [timestamp] is rejected as expired exactly
    from the second [timestamp + ms(jwtLifetime) / 1000] on. *)
Theorem minted_token_expiry
  (hmac : string -> string -> string) (ms : string -> Z) (config : ClientConfig)
  (now : JS.Date) (userId : Z) (userExtId : string) (timestamp : Z) (w : World) :
  exists s,
    fst (newUserSession hmac ms config now userId userExtId timestamp w) = Resolved s /\
    forall (now' : JS.Date) (w' : World),
      fst (validateUserSession hmac config now' (Some (token s)) w')
      = Rejected SessionExpired
      <->
      Qle (Qplus (inject_Z timestamp) (Qmake (ms (jwtLifetime config)) 1000))
          (inject_Z (JS.floor_div1000 now')).
Proof.
  rewrite newUserSession_eq. cbv zeta. eexists. split; [reflexivity|].
  intros now' w'. cbn [token].
  unfold validateUserSession, verifyJWT, bind, Jwt.verify.
  rewrite String.eqb_refl. cbn [Jwt.exp].
  destruct (Qle_bool _ _) eqn:E.
  - split; [intros _; now apply Qle_bool_iff | reflexivity].
  - split.
    + cbn [ret Repo.findOne fst snd]. unfold Repo.findOne. simpl.
      destruct (find _ _) as [u|]; simpl; [destruct (negb _)|]; simpl;
        intros H; discriminate H.
    + intros Hle. apply Qle_bool_iff in Hle. congruence.
Qed.

(* ================================================================= *)
(** * The further properties on the demo deployment *)

Lemma gated_route_rejected_iff_witness :
  let env := Demo.at_time 1589009560000 in
  let req := Demo.session_request (Some (Jwt.Malformed "garbage")) None in
  let checked :=
    validateUserSession Demo.hmac Demo.config (clock env)
      (header_userAccessToken req) Demo.w1 in
  let served :=
    serve Demo.hmac Demo.ms Demo.humanID Demo.config PUT_users_refresh_session
      env req Demo.w1 in
  (fst served = Rejected SessionInvalid <-> fst checked = Rejected SessionInvalid) /\
  (fst checked = Rejected SessionInvalid ->
   snd served = snd checked /\
   AppUserTable (snd served) = AppUserTable Demo.w1 /\
   Unauthorized SessionInvalid = true).
Proof.
  apply (gated_route_rejected_iff Demo.hmac Demo.ms Demo.humanID Demo.config
           PUT_users_refresh_session (Demo.at_time 1589009560000)
           (Demo.session_request (Some (Jwt.Malformed "garbage")) None)
           Demo.w1 SessionInvalid).
  reflexivity.
Defined.

Lemma get_profile_after_validation_witness :
  let env := Demo.at_time 1589009543000 in
  let req := Demo.session_request (Some Demo.T1) None in
  exists u,
    find (Repo.has_id 1) (AppUserTable Demo.w1) = Some u /\
    fst (get_users_profile Demo.hmac Demo.config env req Demo.w1)
    = Resolved (ProfileResponse (extId u) (fullName u) (getUnixTime (updatedAt u))) /\
    AppUserTable (snd (get_users_profile Demo.hmac Demo.config env req Demo.w1))
    = AppUserTable Demo.w1.
Proof.
  apply (get_profile_after_validation Demo.hmac Demo.config
           (Demo.at_time 1589009543000) (Demo.session_request (Some Demo.T1) None)
           Demo.w1 (Session.mk 1 "1589009542")).
  vm_compute. reflexivity.
Defined.

Lemma update_then_get_profile_witness :
  let updated :=
    put_users_profile Demo.hmac Demo.config (Demo.at_time 1589009543000)
      Demo2.rename_request Demo.w1 in
  fst updated = Resolved NoData /\
  exists ext seconds,
    fst (get_users_profile Demo.hmac Demo.config (Demo.at_time 1589009544000)
           (Demo.session_request (Some Demo.T1) None) (snd updated))
    = Resolved (ProfileResponse ext (Some "Alan Turing") seconds).
Proof.
  apply (update_then_get_profile Demo.hmac Demo.config
           (Demo.at_time 1589009543000) (Demo.at_time 1589009544000)
           Demo2.rename_request (Demo.session_request (Some Demo.T1) None)
           Demo.w1 (Session.mk 1 "1589009542") "Alan Turing");
    vm_compute; reflexivity.
Defined.

Lemma login_identity_rejected_witness :
  post_users_log_in Demo.hmac Demo.ms Demo.humanID Demo.config
    (Demo.at_time 1589009541600) (Demo.login_request "tok-Z") Demo.w0
  = (Rejected (APIError ERR_3 None),
     mkWorld (AppUserTable Demo.w0) (autoIncrement Demo.w0)
       (calls Demo.w0 ++ [Call_verifyExchangeToken "tok-Z"; Call_logger_debug])) /\
  IdentityVerificationFailed (APIError ERR_3 None) = true.
Proof.
  apply (login_identity_rejected Demo.hmac Demo.ms Demo.humanID Demo.config
           (Demo.at_time 1589009541600) (Demo.login_request "tok-Z") Demo.w0 "tok-Z");
    reflexivity.
Defined.

Lemma userHash_stays_unique_witness :
  NoDup (map userHash
           (AppUserTable
              (serve_all Demo.hmac Demo.ms Demo2.humanID Demo.config
                 [(POST_users_log_in, Demo.at_time 1589009550000,
                   Demo.login_request "tok-C");
                  (POST_users_log_in, Demo.at_time 1589009560000,
                   Demo.login_request "tok-A")]
                 Demo.w1))).
Proof.
  apply (userHash_stays_unique Demo.hmac Demo.ms Demo2.humanID Demo.config).
  vm_compute. repeat constructor. intros [].
Defined.

Lemma first_login_then_profile_witness :
  fst (get_users_profile Demo.hmac Demo.config (Demo.at_time 1589009543000)
         (Demo.session_request (Some Demo.T1) None)
         (snd (post_users_log_in Demo.hmac Demo.ms Demo.humanID Demo.config
                 (Demo.at_time 1589009541600) (Demo.login_request "tok-A") Demo.w0)))
  = Resolved (ProfileResponse (generateExtId 1589009541600) (Some "Jolly Turing")
                (getUnixTime 1589009541600)).
Proof.
  apply (first_login_then_profile Demo.hmac Demo.ms Demo.humanID Demo.config
           (Demo.at_time 1589009541600) (Demo.at_time 1589009543000)
           (Demo.login_request "tok-A") (Demo.session_request (Some Demo.T1) None)
           Demo.w0 "tok-A" "h1");
    vm_compute; reflexivity.
Defined.

Lemma same_second_extId_collision_witness :
  let first :=
    post_users_log_in Demo.hmac Demo.ms Demo2.humanID Demo.config
      (Demo.at_time 1589009541600) (Demo.login_request "tok-A") Demo.w0 in
  let second :=
    post_users_log_in Demo.hmac Demo.ms Demo2.humanID Demo.config
      (Demo.at_time 1589009542300) (Demo.login_request "tok-C") (snd first) in
  exists s2 u2,
    fst second = Resolved (SessionResponse s2) /\
    find (Repo.has_userHash "h2") (AppUserTable (snd second)) = Some u2 /\
    id u2 = autoIncrement Demo.w0 + 1 /\
    extId u2 = generateExtId 1589009541600 /\
    forall now : JS.Date,
      unexpired now s2 ->
      fst (validateUserSession Demo.hmac Demo.config now (Some (token s2)) (snd second))
      = Resolved (Session.mk (autoIncrement Demo.w0) (generateExtId 1589009541600)).
Proof.
  apply (same_second_extId_collision Demo.hmac Demo.ms Demo2.humanID Demo.config
           (Demo.at_time 1589009541600) (Demo.at_time 1589009542300)
           (Demo.login_request "tok-A") (Demo.login_request "tok-C")
           Demo.w0 "tok-A" "tok-C" "h1" "h2");
    try (vm_compute; reflexivity).
  intros H; discriminate H.
Defined.

Lemma same_second_refresh_retires_nothing_witness :
  fst (validateUserSession Demo.hmac Demo.config 1589009543000
         (Some (Jwt.Signed (Demo.payload_of Demo.T1) "jwt-secret"))
         (snd (put_users_refresh_session Demo.hmac Demo.ms Demo.config
                 (Demo.at_time 1589009542400)
                 (Demo.session_request (Some Demo.T1) None) Demo.w1)))
  = fst (validateUserSession Demo.hmac Demo.config 1589009543000
           (Some (Jwt.Signed (Demo.payload_of Demo.T1) "jwt-secret")) Demo.w1).
Proof.
  apply (same_second_refresh_retires_nothing Demo.hmac Demo.ms Demo.config
           (Demo.at_time 1589009542400) (Demo.session_request (Some Demo.T1) None)
           Demo.w1 (Session.mk 1 "1589009542"));
    vm_compute; reflexivity.
Defined.

Lemma refresh_round_trip_witness :
  let refreshed :=
    put_users_refresh_session Demo.hmac Demo.ms Demo.config
      (Demo.at_time 1589009545000) (Demo.session_request (Some Demo.T1) None)
      Demo.w1 in
  exists s,
    fst refreshed = Resolved (SessionResponse s) /\
    expiredAt s = Qplus (inject_Z (getUnixTime 1589009545000))
                    (Qmake (Demo.ms "1h") 1000) /\
    forall now : JS.Date,
      unexpired now s ->
      fst (validateUserSession Demo.hmac Demo.config now (Some (token s))
             (snd refreshed))
      = Resolved (Session.mk 1 "1589009542").
Proof.
  apply (refresh_round_trip Demo.hmac Demo.ms Demo.config
           (Demo.at_time 1589009545000) (Demo.session_request (Some Demo.T1) None)
           Demo.w1 (Session.mk 1 "1589009542")).
  vm_compute. reflexivity.
Defined.

Lemma logout_twice_witness :
  let once :=
    put_users_log_out Demo.hmac Demo.config (Demo.at_time 1589009560000)
      (Demo.session_request (Some Demo.T2) None) Demo.w2 in
  let twice :=
    put_users_log_out Demo.hmac Demo.config (Demo.at_time 1589009561000)
      (Demo.session_request (Some Demo.T2) None) (snd once) in
  fst twice = Resolved NoData /\
  AppUserTable (snd twice) = AppUserTable (snd once).
Proof.
  apply (logout_twice Demo.hmac Demo.config
           (Demo.at_time 1589009560000) (Demo.at_time 1589009561000)
           (Demo.session_request (Some Demo.T2) None) Demo.w2
           (Session.mk 1 "1589009542")).
  - apply demo_hmac_collision_free.
  - vm_compute. reflexivity.
  - vm_compute. intros H; discriminate H.
Defined.

Lemma other_sessions_survive_witness :
  let env := Demo.at_time 1589009555000 in
  let req := Demo.session_request (Some Demo2.TB) None in
  let first_token := Some (Jwt.Signed (Demo.payload_of Demo.T1) "jwt-secret") in
  fst (validateUserSession Demo.hmac Demo.config 1589009556000 first_token
         (snd (put_users_refresh_session Demo.hmac Demo.ms Demo.config env req
                 Demo2.w_two)))
  = fst (validateUserSession Demo.hmac Demo.config 1589009556000 first_token
           Demo2.w_two) /\
  fst (validateUserSession Demo.hmac Demo.config 1589009556000 first_token
         (snd (put_users_log_out Demo.hmac Demo.config env req Demo2.w_two)))
  = fst (validateUserSession Demo.hmac Demo.config 1589009556000 first_token
           Demo2.w_two).
Proof.
  apply (other_sessions_survive Demo.hmac Demo.ms Demo.config
           (Demo.at_time 1589009555000) (Demo.session_request (Some Demo2.TB) None)
           Demo2.w_two (Session.mk 2 "1589009550")
           1589009556000 (Demo.payload_of Demo.T1) "jwt-secret").
  - vm_compute. reflexivity.
  - vm_compute. intros u [= <-]. simpl. intros H; discriminate H.
Defined.
